(** * SimCLR fine-tuning: the training driver and the checkpoint format

    A shallow embedding of [src/simclr.py] (the [SimCLR] module with its
    [save] and [load]) and of [src/training.py] ([train_one_epoch],
    [validate_one_epoch], [train], [setup], [main], [get_optimizer],
    [parse_args]).

    Conventions of the embedding.
    - Python exceptions are values of [exn]; a function that may raise
      lives in the monad [prog].
    - Everything a process can observe from outside (stdout, the metric
      sink, [torch.save], the process group) is an [event] of its trace.
    - Collective operations ([all_reduce], [barrier]) are nodes of the
      program tree [proc]: a single process is run against an arbitrary
      answer of its peers ([run]), a whole group in lockstep ([run_group]).
    - Loss values and tensor entries are exact rationals ([Q]): rounding
      of the accumulator and of the tensor round trip is not modelled.
      The learning rate, whose resolution is a statement about one
      concrete binary64 value, is a primitive float. *)

From Stdlib Require Import ZArith QArith Floats String Ascii DecimalString DecimalNat List Lia.
From stdpp Require Import gmap strings list fin_maps.

Set Warnings "-inexact-float".
Set Default Proof Using "Type".

Local Open Scope string_scope.
Local Open Scope list_scope.

(** ** Python exceptions *)

Inductive exn : Type :=
| UnboundLocalError (name : string)
| ZeroDivisionError
| AttributeError (name : string)
| ValueError (msg : string)
| IndexError
| TypeError (msg : string)
| KeyError (key : string)
| FileNotFoundError (path : string)
| RuntimeError (msg : string).

(** ** Tensors, modules and checkpoints *)

(** A tensor is its shape and its entries. *)
Record tensor : Type := Tensor { shape : list nat; data : list Q }.

(** A [state_dict] maps parameter names to tensors; what [torch.save]
    pickles in [SimCLR.save] is a dictionary of state dictionaries. *)
Abbreviation state_dict := (gmap string tensor).
Abbreviation checkpoint := (gmap string (gmap string tensor)).

(** Module instances are mutable objects: they live in a heap and are
    referred to by location. *)
Abbreviation loc := positive.

(** The composite of [simclr.py]: two attributes referring to the encoder
    and the head instance. *)
Record simclr : Type := SimCLR_init { encoder : loc; contrastive_head : loc }.

(** A model handed to the training loop is the bare composite or the
    composite wrapped by [DistributedDataParallel], which exposes it as
    the attribute [module]. *)
Inductive model_obj : Type :=
| Plain (m : simclr)
| DDP (module : simclr).

(** One batch of the loader: the two augmented views. *)
Record batch : Type := Batch { x1 : tensor; x2 : tensor }.

(** Number of samples in a batch: the leading dimension of a view. *)
Definition batch_size_of (b : batch) : nat := hd 0%nat (shape (x1 b)).

(** ** Observable effects *)

Inductive scalar : Type :=
| SLoss (q : Q)
| SRate (f : float).

Inductive event : Type :=
| SetEnv (name value : string)                     (* os.environ[name] = value *)
| InitProcessGroup (rank world : Z)                (* dist.init_process_group *)
| DestroyProcessGroup
| ManualSeed (seed : Z)                            (* torch.manual_seed, np.random.seed *)
| SetGradEnabled
| SetEpoch (epoch : nat)                           (* sampler.set_epoch *)
| ModelTrain                                       (* model.train(True) *)
| ModelEval                                        (* model.eval() *)
| OptimStep                                        (* optimizer.step() on one batch *)
| SchedulerStep
| Enter (fn : string)                              (* a function of training.py is entered *)
| Print (line : string)
| NewSummaryWriter (dir : string)                  (* SummaryWriter(log_dir) *)
| MakeDirs (dir : string)                          (* os.makedirs(dir, exist_ok=True) *)
| AddScalar (tag : string) (value : scalar) (step : nat)
| TorchSave (path : string).                       (* torch.save(obj, path) *)

(** ** Program trees

    [Ret] and [Raise] end a process; [Emit] performs an observable effect;
    [AllReduce v k] contributes [v] to the group's averaging reduction and
    continues with the reduced value; [Barrier] waits for the group. *)

Inductive proc (A : Type) : Type :=
| Ret (a : A)
| Raise (e : exn)
| Emit (ev : event) (k : proc A)
| AllReduce (v : Q) (k : Q -> proc A)
| Barrier (k : proc A).

Arguments Ret {A} a.
Arguments Raise {A} e.
Arguments Emit {A} ev k.
Arguments AllReduce {A} v k.
Arguments Barrier {A} k.

Fixpoint pbind {A B : Type} (p : proc A) (f : A -> proc B) : proc B :=
  match p with
  | Ret a => f a
  | Raise e => Raise e
  | Emit ev k => Emit ev (pbind k f)
  | AllReduce v k => AllReduce v (fun w => pbind (k w) f)
  | Barrier k => Barrier (pbind k f)
  end.

(** ** Interpreter state *)

Record pystate : Type := PyState {
  heap : gmap loc state_dict;                (* parameters of the module instances *)
  files : gmap string checkpoint;            (* files written by torch.save *)
  dist_group : option (Z * Z);               (* rank and world size once initialised *)
  ticks : nat                                (* readings of the clock so far *)
}.

Definition set_heap (h : gmap loc state_dict) (s : pystate) : pystate :=
  PyState h (files s) (dist_group s) (ticks s).
Definition set_files (f : gmap string checkpoint) (s : pystate) : pystate :=
  PyState (heap s) f (dist_group s) (ticks s).
Definition set_dist_group (g : option (Z * Z)) (s : pystate) : pystate :=
  PyState (heap s) (files s) g (ticks s).
Definition tick (s : pystate) : pystate :=
  PyState (heap s) (files s) (dist_group s) (S (ticks s)).

(** ** The monad of Python code: state over program trees *)

Definition prog (A : Type) : Type := pystate -> proc (A * pystate).

Definition ret {A} (a : A) : prog A := fun s => Ret (a, s).
Definition bind {A B} (p : prog A) (f : A -> prog B) : prog B :=
  fun s => pbind (p s) (fun '(a, s') => f a s').
Definition raise {A} (e : exn) : prog A := fun _ => Raise e.
Definition emit (ev : event) : prog unit := fun s => Emit ev (Ret (tt, s)).
Definition get : prog pystate := fun s => Ret (s, s).
Definition modify (f : pystate -> pystate) : prog unit := fun s => Ret (tt, f s).
Definition all_reduce_avg (v : Q) : prog Q := fun s => AllReduce v (fun w => Ret (w, s)).
Definition barrier : prog unit := fun s => Barrier (Ret (tt, s)).

Declare Scope prog_scope.
Delimit Scope prog_scope with prog.
Bind Scope prog_scope with prog.
Notation "x <- p ;; q" := (bind p (fun x => q))
  (at level 100, p at next level, q at level 200, right associativity) : prog_scope.
Notation "p ;; q" := (bind p (fun _ => q))
  (at level 100, q at level 200, right associativity) : prog_scope.
Local Open Scope prog_scope.

(** Reading a local variable that may not have been assigned yet. *)
Definition local {A} (name : string) (v : option A) : prog A :=
  match v with
  | Some a => ret a
  | None => raise (UnboundLocalError name)
  end.

(** Python's [x / n] for a float [x] and an int [n]. *)
Definition py_truediv (x : Q) (n : Z) : prog Q :=
  if (n =? 0)%Z then raise ZeroDivisionError else ret (x / inject_Z n)%Q.

(** A [for] loop over a list, threading the loop-carried locals. *)
Fixpoint for_each {X L : Type} (xs : list X) (body : X -> L -> prog L) (l : L) : prog L :=
  match xs with
  | [] => ret l
  | x :: xs' => l' <- body x l ;; for_each xs' body l'
  end.

(** [enumerate(xs)]. *)
Definition enumerate {X : Type} (xs : list X) : list (nat * X) :=
  combine (seq 0 (length xs)) xs.

(** ** Running one process against its peers

    [o n v] is what the [n]-th averaging reduction of the run hands back
    to this process when it contributes [v]. *)

Record outcome (A : Type) : Type := Outcome {
  trace : list event;
  reductions : nat;
  result : exn + A
}.
Arguments Outcome {A} trace reductions result.
Arguments trace {A} o.
Arguments reductions {A} o.
Arguments result {A} o.

Fixpoint run {A} (o : nat -> Q -> Q) (n : nat) (p : proc A) : outcome A :=
  match p with
  | Ret a => Outcome [] n (inr a)
  | Raise e => Outcome [] n (inl e)
  | Emit ev k => let r := run o n k in Outcome (ev :: trace r) (reductions r) (result r)
  | AllReduce v k => run o (S n) (k (o n v))
  | Barrier k => run o n k
  end.

(** ** Dynamically typed values

    What an attribute of the argument namespace, or an argument of
    [SimCLR.load], may hold besides the declared options. *)

Inductive value : Type :=
| VNone
| VInt (z : Z)
| VStr (s : string)
| VModule (l : loc).

Definition value_eqb (a b : value) : bool :=
  match a, b with
  | VNone, VNone => true
  | VInt x, VInt y => (x =? y)%Z
  | VStr x, VStr y => String.eqb x y
  | VModule x, VModule y => (x =? y)%positive
  | _, _ => false
  end.

(** ** simclr.py *)

Module SimCLR.

(** [module.state_dict()]. *)
Definition state_dict_of (l : loc) : prog state_dict :=
  s <- get ;; ret (heap s !!! l).

(** [torch.save(obj, path)]: the file at [path] now holds [obj]. The file
    system is a flat map from paths to contents. *)
Definition torch_save (obj : checkpoint) (path : string) : prog unit :=
  modify (fun s => set_files (<[path := obj]> (files s)) s) ;;
  emit (TorchSave path).

(** [torch.load(path)]: anything but a string is taken for a file object
    and refused for lacking [seek]. *)
Definition torch_load (path : value) : prog checkpoint :=
  match path with
  | VStr p =>
      s <- get ;;
      match files s !! p with
      | Some c => ret c
      | None => raise (FileNotFoundError p)
      end
  | _ => raise (AttributeError "seek")
  end.

(** [d[key]] on a dictionary. *)
Definition getitem {V} (d : gmap string V) (key : string) : prog V :=
  match d !! key with
  | Some v => ret v
  | None => raise (KeyError key)
  end.

(** The names and shapes of a state dictionary. *)
Definition arch (sd : state_dict) : gmap string (list nat) := shape <$> sd.

(** [param.copy_(input_param)] on every parameter. *)
Definition copy_params (own new : state_dict) : state_dict :=
  map_zip_with (fun t c => Tensor (shape t) (data c)) own new.

(** Looking up the bound method [load_state_dict] of an object. *)
Definition load_state_dict_method (m : value) : prog loc :=
  match m with
  | VModule l => ret l
  | _ => raise (AttributeError "load_state_dict")
  end.

(** [module.load_state_dict(sd)] with the default [strict=True]: missing
    or unexpected keys and size mismatches raise [RuntimeError]. *)
Definition load_state_dict (l : loc) (sd : state_dict) : prog unit :=
  s <- get ;;
  let own := heap s !!! l in
  if bool_decide (arch own = arch sd)
  then modify (set_heap (<[l := copy_params own sd]> (heap s)))
  else raise (RuntimeError "Error(s) in loading state_dict").

(** [SimCLR.save] (simclr.py, lines 61-78). *)
Definition save (self : simclr) (path : string) : prog unit :=
  e <- state_dict_of (encoder self) ;;
  h <- state_dict_of (contrastive_head self) ;;
  let state : checkpoint := <["head" := h]> (<["encoder" := e]> ∅) in
  torch_save state path.

(** [SimCLR.load] (simclr.py, lines 81-111). *)
Definition load (path encoder_arch head_arch map_location : value) : prog simclr :=
  checkpoint <- torch_load path ;;
  le <- load_state_dict_method encoder_arch ;;
  sd <- getitem checkpoint "encoder" ;;
  load_state_dict le sd ;;
  lh <- load_state_dict_method head_arch ;;
  sd <- getitem checkpoint "head" ;;
  load_state_dict lh sd ;;
  ret (SimCLR_init le lh).

End SimCLR.

(** ** Strings *)

(** [s.rsplit(sep, 1)] for a one-character separator: the parts around the
    last occurrence of [sep], or [s] alone when there is none. *)
Fixpoint rsplit_last (sep : ascii) (s : string) : option (string * string) :=
  match s with
  | EmptyString => None
  | String c s' =>
      match rsplit_last sep s' with
      | Some (outer, inner) => Some (String c outer, inner)
      | None => if Ascii.eqb c sep then Some (EmptyString, s') else None
      end
  end.

Definition rsplit (s : string) (sep : ascii) : list string :=
  match rsplit_last sep s with
  | Some (outer, inner) => [outer; inner]
  | None => [s]
  end.

(** [a, b = xs]. *)
Definition unpack2 {A} (xs : list A) : prog (A * A) :=
  match xs with
  | [a; b] => ret (a, b)
  | [] | [_] => raise (ValueError "not enough values to unpack (expected 2)")
  | _ => raise (ValueError "too many values to unpack (expected 2)")
  end.

(** [str(n)] of a natural number. *)
Definition str_of_nat (n : nat) : string := NilEmpty.string_of_uint (Nat.to_uint n).

(** [s[-1]] and [s[0:-1]]. *)
Definition last_char (s : string) : option ascii := String.get (String.length s - 1) s.
Definition drop_last_char (s : string) : string := String.substring 0 (String.length s - 1) s.

(** ** The argument namespace

    An [argparse.Namespace] is a bag of attributes. The options declared
    in [parse_args] carry their declared types; [world_size] exists once
    [parse_args] has set it; any other attribute is looked up in
    [extra]. *)

Record Namespace : Type := mkNamespace {
  train_dataset : string;
  val_dataset : string;
  size : Z;
  jitter : float;
  optimizer : string;
  lr : float;
  epochs : Z;
  batch_size : Z;
  temperature : float;
  weight_decay : float;
  momentum : float;
  nesterov : string;
  scheduler : string;
  nodes : Z;
  node_index : Z;
  gpus : Z;
  workers : Z;
  log_dir : string;
  master_address : string;
  master_port : string;
  seed : Z;
  world_size : option Z;
  extra : gmap string value
}.

Definition set_world_size (w : Z) (a : Namespace) : Namespace :=
  mkNamespace (train_dataset a) (val_dataset a) (size a) (jitter a) (optimizer a) (lr a)
    (epochs a) (batch_size a) (temperature a) (weight_decay a) (momentum a) (nesterov a)
    (scheduler a) (nodes a) (node_index a) (gpus a) (workers a) (log_dir a)
    (master_address a) (master_port a) (seed a) (Some w) (extra a).

Definition set_log_dir (d : string) (a : Namespace) : Namespace :=
  mkNamespace (train_dataset a) (val_dataset a) (size a) (jitter a) (optimizer a) (lr a)
    (epochs a) (batch_size a) (temperature a) (weight_decay a) (momentum a) (nesterov a)
    (scheduler a) (nodes a) (node_index a) (gpus a) (workers a) d
    (master_address a) (master_port a) (seed a) (world_size a) (extra a).

Definition set_lr (r : float) (a : Namespace) : Namespace :=
  mkNamespace (train_dataset a) (val_dataset a) (size a) (jitter a) (optimizer a) r
    (epochs a) (batch_size a) (temperature a) (weight_decay a) (momentum a) (nesterov a)
    (scheduler a) (nodes a) (node_index a) (gpus a) (workers a) (log_dir a)
    (master_address a) (master_port a) (seed a) (world_size a) (extra a).

(** What [parser.parse_args()] hands back: the declared options and
    nothing else, with the [choices] respected. *)
Definition from_argparse (a : Namespace) : Prop :=
  extra a = ∅ /\ world_size a = None /\
  (optimizer a = "lars" \/ optimizer a = "adam") /\
  (nesterov a = "False" \/ nesterov a = "True") /\
  (scheduler a = "False" \/ scheduler a = "True").

(** [args.name] for an attribute that is not a declared option. *)
Definition getattr (a : Namespace) (name : string) : prog value :=
  match extra a !! name with
  | Some v => ret v
  | None => raise (AttributeError name)
  end.

(** [args.world_size]. *)
Definition get_world_size (a : Namespace) : prog Z :=
  match world_size a with
  | Some w => ret w
  | None => raise (AttributeError "world_size")
  end.

(** ** parse_args (training.py, lines 423-497) *)

(** The binary64 value nearest to an integer. *)
Definition float_of_Z (z : Z) : float := SF2Prim (binary_normalize prec emax z 0 false).

(** [np.sqrt] of a Python int: the int becomes a 64-bit machine integer
    and then a double; an int outside the 64-bit ranges is refused. *)
Definition np_sqrt (z : Z) : exn + float :=
  if ((- 2 ^ 63 <=? z) && (z <? 2 ^ 64))%Z
  then inr (PrimFloat.sqrt (float_of_Z z))
  else inl (TypeError "loop of ufunc does not support argument 0 of type int").

(** The argument stands for the result of [parser.parse_args()]. *)
Definition parse_args (parsed : Namespace) : exn + Namespace :=
  let w := (nodes parsed * gpus parsed)%Z in
  let args := set_world_size w parsed in
  match last_char (log_dir args) with
  | None => inl IndexError
  | Some c =>
      let args := if Ascii.eqb c "/" then set_log_dir (drop_last_char (log_dir args)) args
                  else args in
      if PrimFloat.eqb (lr args) 0%float
      then match np_sqrt (batch_size args * w) with
           | inr r => inr (set_lr (0.005 * r)%float args)
           | inl e => inl e
           end
      else inr args
  end.

(** ** External collaborators

    The forward pass with the criterion, the backward pass with the
    optimizer step, the data pipeline, the clock, the formatting of a
    float and the cosine schedule belong to the framework or to modules
    of the package that the training code only calls ([NT_Xent], [LARS],
    [ImageDataset]). *)

Inductive optimizer_obj : Type :=
| LARS (lr momentum weight_decay : float) (nesterov : string)
| Adam (lr weight_decay : float).

(** [optimizer.param_groups[0]['lr']]. *)
Definition param_group_lr (o : optimizer_obj) : float :=
  match o with
  | LARS r _ _ _ => r
  | Adam r _ => r
  end.

Record scheduler_obj : Type := CosineAnnealingLR { sched_optimizer : optimizer_obj; T_max : Z }.
Record criterion_obj : Type := NT_Xent { nt_temperature : float }.
Record dataset_obj : Type := ImageDataset { ds_path : string; ds_size : Z; ds_jitter : float }.
Record sampler_obj : Type := DistributedSampler {
  sampler_dataset : dataset_obj; num_replicas : Z; sampler_rank : Z }.
Record loader_obj : Type := DataLoader {
  dl_dataset : dataset_obj; dl_batch_size : Z; dl_sampler : option sampler_obj;
  dl_shuffle : bool; dl_num_workers : Z; dl_drop_last : bool }.
Record writer_obj : Type := SummaryWriter { writer_log_dir : string }.

Class Framework : Type := {
  (* the value of loss.item() for this batch on the current parameters *)
  loss_item : gmap loc state_dict -> model_obj -> criterion_obj -> batch -> Q;
  (* loss.backward(); optimizer.step() *)
  backward_step : gmap loc state_dict -> model_obj -> criterion_obj -> optimizer_obj -> batch ->
                  gmap loc state_dict;
  (* the batches a loader yields on its n-th pass *)
  batches : loader_obj -> nat -> list batch;
  (* datetime.now().strftime(fmt), at the n-th reading of the clock *)
  strftime : nat -> string -> string;
  (* f'{x:.3f}' *)
  format_3f : Q -> string;
  (* scheduler.get_last_lr()[0] after n steps of the schedule *)
  get_last_lr : scheduler_obj -> nat -> float
}.

Section Training.
Context `{Framework}.

(** [datetime.now().strftime(fmt)]. *)
Definition now (fmt : string) : prog string :=
  s <- get ;; modify tick ;; ret (strftime (ticks s) fmt).

(** ** get_optimizer (training.py, lines 28-73) *)

Definition get_optimizer (model : model_obj) (epochs : Z) (optimizer : string)
    (learning_rate weight_decay momentum : float) (nesterov : string)
    : prog (optimizer_obj * scheduler_obj) :=
  if String.eqb optimizer "lars" then
    let optimizer := LARS learning_rate momentum weight_decay nesterov in
    ret (optimizer, CosineAnnealingLR optimizer epochs)
  else if String.eqb optimizer "adam" then
    let optimizer := Adam learning_rate weight_decay in
    ret (optimizer, CosineAnnealingLR optimizer epochs)
  else
    (* the name is still a string when the schedule is built on it *)
    raise (TypeError "str is not an Optimizer").

(** ** train_one_epoch (training.py, lines 77-141) *)

(** Locals of the loop that survive it: the accumulator, [step], [loss]. *)
Definition epoch_locals : Type := Q * option nat * option Q.

Definition train_batch (model : model_obj) (criterion : criterion_obj)
    (optimizer : optimizer_obj) (sb : nat * batch) (l : epoch_locals) : prog epoch_locals :=
  let '(step, b) := sb in
  let '(running_average_loss, _, _) := l in
  s <- get ;;
  (* optimizer.zero_grad(); h1, h2 = model(x1, x2); loss = criterion(h1, h2) *)
  let loss := loss_item (heap s) model criterion b in
  (* loss.backward(); optimizer.step() *)
  modify (set_heap (backward_step (heap s) model criterion optimizer b)) ;;
  emit OptimStep ;;
  (* running_average_loss += loss.item() *)
  ret ((running_average_loss + loss)%Q, Some step, Some loss).

Definition train_one_epoch (model : model_obj) (train_dataloader : list batch)
    (criterion : criterion_obj) (optimizer : optimizer_obj) (local_rank : Z)
    (distributed : bool) : prog Q :=
  l <- for_each (enumerate train_dataloader) (train_batch model criterion optimizer)
         (0%Q, None, None) ;;
  let '(running_average_loss, step, loss) := l in
  (* running_average_loss /= (step+1) *)
  step <- local "step" step ;;
  running_average_loss <- py_truediv running_average_loss (Z.of_nat step + 1) ;;
  (* torch.tensor(running_average_loss, dtype=loss.dtype, device=loss.device) *)
  _ <- local "loss" loss ;;
  running_average_loss <-
    (if distributed : bool then all_reduce_avg running_average_loss
     else ret running_average_loss) ;;
  ret running_average_loss.

(** ** validate_one_epoch (training.py, lines 145-188) *)

Definition validate_batch (model : model_obj) (criterion : criterion_obj)
    (sb : nat * batch) (l : Q * option nat) : prog (Q * option nat) :=
  let '(step, b) := sb in
  let '(val_loss, _) := l in
  s <- get ;;
  ret ((val_loss + loss_item (heap s) model criterion b)%Q, Some step).

Definition validate_one_epoch (model : model_obj) (val_dataloader : list batch)
    (criterion : criterion_obj) (local_rank : Z) : prog Q :=
  emit (Enter "validate_one_epoch") ;;
  l <- for_each (enumerate val_dataloader) (validate_batch model criterion) (0%Q, None) ;;
  let '(val_loss, step) := l in
  step <- local "step" step ;;
  py_truediv val_loss (Z.of_nat step + 1).

(** ** train (training.py, lines 192-291) *)

Definition set_epoch (sampler : option sampler_obj) (epoch : nat) : prog unit :=
  match sampler with
  | Some _ => emit (SetEpoch epoch)
  | None => raise (AttributeError "set_epoch")
  end.

Definition add_scalar (writer : option writer_obj) (tag : string) (v : scalar) (step : nat)
    : prog unit :=
  match writer with
  | Some _ => emit (AddScalar tag v step)
  | None => raise (AttributeError "add_scalar")
  end.

Definition get_log_dir (writer : option writer_obj) : prog string :=
  match writer with
  | Some w => ret (writer_log_dir w)
  | None => raise (AttributeError "log_dir")
  end.

(** The path of the checkpoint of an epoch (lines 280-282). *)
Definition checkpoint_path (outer_folder inner_folder : string) (epoch : nat) : string :=
  outer_folder +:+ "_models/" +:+ inner_folder +:+ "/epoch_" +:+ str_of_nat (epoch + 1) +:+ ".pth".

(** [model.module.save(path)] under distribution, [model.save(path)]
    otherwise: the wrapper has no [save], the composite no [module]. *)
Definition save_model (model : model_obj) (distributed : bool) (path : string) : prog unit :=
  if distributed then
    match model with
    | DDP m => SimCLR.save m path
    | Plain _ => raise (AttributeError "module")
    end
  else
    match model with
    | Plain m => SimCLR.save m path
    | DDP _ => raise (AttributeError "save")
    end.

(** One turn of the epoch loop; [val_loss] is the local that survives
    from one turn to the next. *)
Definition train_epoch (model : model_obj) (train_dataloader : loader_obj)
    (val_dataloader : option loader_obj) (criterion : criterion_obj)
    (optimizer : optimizer_obj) (scheduler : option scheduler_obj)
    (writer : option writer_obj) (sampler : option sampler_obj) (local_rank : Z)
    (distributed : bool) (rank : Z) (epoch : nat) (val_loss : option Q)
    : prog (option Q) :=
  (if distributed then set_epoch sampler epoch else ret tt) ;;
  emit ModelTrain ;;
  train_loss <- train_one_epoch model (batches train_dataloader epoch) criterion optimizer
                  local_rank distributed ;;
  lr <- match scheduler with
        | Some sch =>
            let lr := get_last_lr sch epoch in
            emit SchedulerStep ;; ret lr
        | None => ret (param_group_lr optimizer)
        end ;;
  val_loss <- match val_dataloader with
              | Some vd =>
                  if (rank =? 0)%Z then
                    emit ModelEval ;;
                    v <- validate_one_epoch model (batches vd epoch) criterion local_rank ;;
                    ret (Some v)
                  else ret val_loss
              | None => ret val_loss
              end ;;
  (if (rank =? 0)%Z then
     timestamp <- now "%Y-%m-%d %H:%M:%S" ;;
     match val_dataloader with
     | Some _ =>
         v <- local "val_loss" val_loss ;;
         emit (Print (timestamp +:+ " : Epoch " +:+ str_of_nat epoch +:+ " --- train_loss : "
                        +:+ format_3f train_loss +:+ ", val_loss : " +:+ format_3f v))
     | None =>
         emit (Print (timestamp +:+ " : Epoch " +:+ str_of_nat epoch +:+ " --- train_loss : "
                        +:+ format_3f train_loss))
     end ;;
     add_scalar writer "Loss/train" (SLoss train_loss) epoch ;;
     match val_dataloader with
     | Some _ =>
         v <- local "val_loss" val_loss ;;
         add_scalar writer "Loss/validation" (SLoss v) epoch
     | None => ret tt
     end ;;
     add_scalar writer "Misc/learning_rate" (SRate lr) epoch ;;
     log_dir <- get_log_dir writer ;;
     folders <- unpack2 (rsplit log_dir "/") ;;
     let '(outer_folder, inner_folder) := folders in
     let path := checkpoint_path outer_folder inner_folder epoch in
     save_model model distributed path
   else ret tt) ;;
  (if distributed then barrier else ret tt) ;;
  ret val_loss.

Definition train (model : model_obj) (epochs : Z) (train_dataloader : loader_obj)
    (val_dataloader : option loader_obj) (criterion : criterion_obj)
    (optimizer : optimizer_obj) (scheduler : option scheduler_obj)
    (writer : option writer_obj) (sampler : option sampler_obj) (local_rank : Z)
    : prog unit :=
  s <- get ;;
  let '(distributed, rank) :=
    match dist_group s with
    | Some (r, _) => (true, r)
    | None => (false, 0%Z)
    end in
  emit SetGradEnabled ;;
  for_each (seq 0 (Z.to_nat epochs))
    (train_epoch model train_dataloader val_dataloader criterion optimizer scheduler
       writer sampler local_rank distributed rank) None ;;
  ret tt.

(** ** setup (training.py, lines 295-317) *)

Definition init_process_group (rank world : Z) : prog unit :=
  s <- get ;;
  match dist_group s with
  | Some _ => raise (RuntimeError "trying to initialize the default process group twice!")
  | None =>
      emit (InitProcessGroup rank world) ;;
      modify (set_dist_group (Some (rank, world)))
  end.

Definition setup (rank : Z) (args : Namespace) : prog unit :=
  emit (SetEnv "MASTER_ADDR" (master_address args)) ;;
  emit (SetEnv "MASTER_PORT" (master_port args)) ;;
  w <- get_world_size args ;;
  init_process_group rank w.

(** ** main (training.py, lines 321-419) *)

(** The locals of [main] when it reaches the call of [train]. *)
Record main_locals : Type := MainLocals {
  l_rank : Z;
  l_model : model_obj;
  l_optimizer : optimizer_obj;
  l_scheduler : option scheduler_obj;
  l_criterion : criterion_obj;
  l_train_sampler : option sampler_obj;
  l_train_dataloader : loader_obj;
  l_val_dataloader : option loader_obj;
  l_writer : option writer_obj
}.

Definition str_of_Z (z : Z) : string := NilEmpty.string_of_int (Z.to_int z).

(** Lines 340-408. *)
Definition main_prepare (local_rank : Z) (args : Namespace) : prog main_locals :=
  let rank := (node_index args * gpus args + local_rank)%Z in
  w <- get_world_size args ;;
  (if (1 <? w)%Z then setup rank args else ret tt) ;;
  emit (ManualSeed (seed args)) ;;
  m <- getattr args "model" ;;
  let path := if value_eqb m (VStr "original") then VNone else m in
  arch_depth <- getattr args "arch_depth" ;;
  arch_width <- getattr args "arch_width" ;;
  arch_sk <- getattr args "arch_sk" ;;
  model <- SimCLR.load path arch_depth arch_width arch_sk ;;
  (* model.cuda(local_rank) and the conversion of the batch norms keep
     the composite; under distribution it is then wrapped *)
  let model := if (1 <? w)%Z then DDP model else Plain model in
  os <- get_optimizer model (epochs args) (optimizer args) (lr args) (weight_decay args)
          (momentum args) (nesterov args) ;;
  let '(optimizer, cosine) := os in
  let scheduler := if String.eqb (scheduler args) "False" then None else Some cosine in
  let criterion := NT_Xent (temperature args) in
  let train_dataset := ImageDataset (train_dataset args) (size args) (jitter args) in
  let train_sampler :=
    if (1 <? w)%Z then Some (DistributedSampler train_dataset w rank) else None in
  let train_dataloader :=
    if (1 <? w)%Z
    then DataLoader train_dataset (batch_size args) train_sampler false (workers args) true
    else DataLoader train_dataset (batch_size args) None true (workers args) true in
  let val_dataloader :=
    if negb (String.eqb (val_dataset args) "None")
    then Some (DataLoader (ImageDataset (val_dataset args) (size args) (jitter args))
                 (batch_size args) None false (workers args) false)
    else None in
  writer <- (if (rank =? 0)%Z then
               timestamp <- now "%Y-%m-%d_%H:%M:%S" ;;
               let folder := log_dir args in
               let log_dir := folder +:+ "/" +:+ timestamp in
               emit (NewSummaryWriter log_dir) ;;
               emit (MakeDirs (folder +:+ "_models/" +:+ timestamp)) ;;
               ret (Some (SummaryWriter log_dir))
             else ret None) ;;
  (if (rank =? 0)%Z then
     timestamp <- now "%Y-%m-%d %H:%M:%S" ;;
     emit (Print (timestamp +:+ " : Starting training for " +:+ str_of_Z (epochs args)
                    +:+ " epochs."))
   else ret tt) ;;
  ret (MainLocals rank model optimizer scheduler criterion train_sampler train_dataloader
         val_dataloader writer).

Definition main (local_rank : Z) (args : Namespace) : prog unit :=
  l <- main_prepare local_rank args ;;
  train (l_model l) (epochs args) (l_train_dataloader l) (l_val_dataloader l) (l_criterion l)
    (l_optimizer l) (l_scheduler l) (l_writer l) (l_train_sampler l) local_rank ;;
  (if (l_rank l =? 0)%Z then emit (Print "Training ended.") else ret tt) ;;
  w <- get_world_size args ;;
  (if (1 <? w)%Z
   then emit DestroyProcessGroup ;; modify (set_dist_group None)
   else ret tt).

End Training.

(** ** A process group in lockstep

    Every process runs to its next collective call. When all of them are
    at an averaging reduction each one continues with the mean of the
    contributions; when all are at a barrier they all continue; when all
    have ended the group has ended. Any other situation never resolves:
    the processes at a collective wait for peers that will not come. *)

Definition Qsum (l : list Q) : Q := fold_right Qplus 0%Q l.

(** The arithmetic mean of a list. *)
Definition Qmean (l : list Q) : Q := (Qsum l / inject_Z (Z.of_nat (length l)))%Q.

Inductive pending (A : Type) : Type :=
| Ended (r : exn + A)
| Reducing (v : Q) (k : Q -> proc A)
| Waiting (k : proc A).
Arguments Ended {A} r.
Arguments Reducing {A} v k.
Arguments Waiting {A} k.

Fixpoint next_collective {A} (p : proc A) : pending A :=
  match p with
  | Ret a => Ended (inr a)
  | Raise e => Ended (inl e)
  | Emit _ k => next_collective k
  | AllReduce v k => Reducing v k
  | Barrier k => Waiting k
  end.

Definition ended {A} (p : pending A) : option (exn + A) :=
  match p with Ended r => Some r | _ => None end.
Definition reducing {A} (p : pending A) : option (Q * (Q -> proc A)) :=
  match p with Reducing v k => Some (v, k) | _ => None end.
Definition waiting {A} (p : pending A) : option (proc A) :=
  match p with Waiting k => Some k | _ => None end.

Inductive group_result (A : Type) : Type :=
| Completed (rs : list (exn + A))
| Hang
| OutOfFuel.
Arguments Completed {A} rs.
Arguments Hang {A}.
Arguments OutOfFuel {A}.

Fixpoint run_group {A} (fuel : nat) (ps : list (proc A)) : group_result A :=
  match fuel with
  | O => OutOfFuel
  | S fuel' =>
      let st := map next_collective ps in
      match mapM ended st with
      | Some rs => Completed rs
      | None =>
          match mapM reducing st with
          | Some vks =>
              let avg := Qmean (map fst vks) in
              run_group fuel' (map (fun vk => snd vk avg) vks)
          | None =>
              match mapM waiting st with
              | Some ks => run_group fuel' ks
              | None => Hang
              end
          end
      end
  end.

(** ** Vocabulary of the statements *)

(** A run of events followed by a program. *)
Definition emits {A} (tr : list event) (p : proc A) : proc A := fold_right Emit p tr.

(** What is looked at in a trace: each event contributes some
    observations, none when it is of no interest. *)
Definition observed {X} (obs : event -> list X) (tr : list event) : list X :=
  flat_map obs tr.

(** [wp obs p Q]: whatever the peers answer at the collective calls of
    [p], the observations along the trace of [p] and its result satisfy
    [Q]. *)
Fixpoint wp {A X} (obs : event -> list X) (p : proc A)
    (Q : list X -> exn + A -> Prop) : Prop :=
  match p with
  | Ret a => Q [] (inr a)
  | Raise e => Q [] (inl e)
  | Emit ev k => wp obs k (fun xs r => Q (obs ev ++ xs) r)
  | AllReduce v k => forall w, wp obs (k w) Q
  | Barrier k => wp obs k Q
  end.

Section EpochVocabulary.
Context `{Framework}.
Variables (model : model_obj) (criterion : criterion_obj) (optimizer : optimizer_obj).

(** The losses [l0 .. lk] of the batches of one pass, in the order of the
    pass, each taken on the parameters left by the steps before it. *)
Fixpoint epoch_losses (h : gmap loc state_dict) (bs : list batch) : list Q :=
  match bs with
  | [] => []
  | b :: bs' =>
      loss_item h model criterion b
        :: epoch_losses (backward_step h model criterion optimizer b) bs'
  end.

(** The parameters after the pass. *)
Fixpoint epoch_heap (h : gmap loc state_dict) (bs : list batch) : gmap loc state_dict :=
  match bs with
  | [] => h
  | b :: bs' => epoch_heap (backward_step h model criterion optimizer b) bs'
  end.

End EpochVocabulary.


(** Which events belong to validation: the entry into
    [validate_one_epoch] and the logging of [Loss/validation]. *)
Definition is_validation (ev : event) : bool :=
  match ev with
  | Enter fn => String.eqb fn "validate_one_epoch"
  | AddScalar tag _ _ => String.eqb tag "Loss/validation"
  | _ => false
  end.

(** Which events are steps of training. *)
Definition is_training (ev : event) : bool :=
  match ev with
  | OptimStep | ModelTrain | SchedulerStep => true
  | _ => false
  end.

(** The paths of the checkpoints written along a trace. *)
Definition save_of (ev : event) : list string :=
  match ev with TorchSave p => [p] | _ => [] end.
Definition saved_paths (tr : list event) : list string := observed save_of tr.

(** The events of a trace that satisfy a test. *)
Definition only (test : event -> bool) (ev : event) : list event :=
  if test ev then [ev] else [].

(** A framework and inputs to evaluate the definitions on: the loss of a
    batch is the number of its samples, a step leaves the parameters
    alone. *)
Definition demo_framework : Framework := {|
  loss_item := fun _ _ _ b => inject_Z (Z.of_nat (batch_size_of b));
  backward_step := fun h _ _ _ _ => h;
  batches := fun dl pass =>
    repeat (Batch (Tensor [2%nat] []) (Tensor [2%nat] [])) (Z.to_nat (dl_batch_size dl));
  strftime := fun n _ => str_of_nat n;
  format_3f := fun _ => "0.000";
  get_last_lr := fun sch _ => param_group_lr (sched_optimizer sch)
|}.

Definition demo_state : pystate := PyState ∅ ∅ None 0.
Definition demo_model : simclr := SimCLR_init 1 2.
Definition demo_optimizer : optimizer_obj := Adam 0.08 0.000001.
Definition demo_criterion : criterion_obj := NT_Xent 0.1.
Definition demo_oracle : nat -> Q -> Q := fun _ v => v.






(** The checkpoint an epoch writes for a given writer, if its log
    directory has a [/] to split at. *)
Definition epoch_checkpoint (writer : option writer_obj) (epoch : nat) : list string :=
  match writer with
  | Some w =>
      match rsplit_last "/" (writer_log_dir w) with
      | Some (outer_folder, inner_folder) => [checkpoint_path outer_folder inner_folder epoch]
      | None => []
      end
  | None => []
  end.

(** The model is wrapped exactly when the run is distributed. *)
Definition wrapped_as (distributed : bool) (model : model_obj) : Prop :=
  match model with
  | DDP _ => distributed = true
  | Plain _ => distributed = false
  end.

(** What a turn of the epoch loop needs in order to complete: a sampler
    under distribution, a batch to train on and, on the coordinating
    process, a batch to validate on when there is a validation loader, a
    writer whose log directory has a [/], and a model wrapped as the run
    is. *)
Definition epoch_ready `{Framework} (model : model_obj) (train_dataloader : loader_obj)
    (val_dataloader : option loader_obj) (writer : option writer_obj)
    (sampler : option sampler_obj) (distributed : bool) (rank : Z) (epoch : nat) : Prop :=
  (distributed = true -> sampler <> None) /\
  batches train_dataloader epoch <> [] /\
  (rank = 0%Z ->
   (forall vd, val_dataloader = Some vd -> batches vd epoch <> []) /\
   epoch_checkpoint writer epoch <> [] /\
   wrapped_as distributed model).

(** The rank [train] works with: that of the process group when there is
    one, 0 otherwise (lines 228-233). *)
Definition group_rank (s : pystate) : Z :=
  match dist_group s with
  | Some (r, _) => r
  | None => 0%Z
  end.

Definition is_distributed (s : pystate) : bool :=
  match dist_group s with
  | Some _ => true
  | None => false
  end.

(** Whether a character occurs in a string. *)
Fixpoint has_char (c : ascii) (s : string) : bool :=
  match s with
  | EmptyString => false
  | String a s' => Ascii.eqb a c || has_char c s'
  end.

(** The command line [--train_dataset data/train --log_dir runs/exp1/]
    with every other option at its default, as the parser returns it. *)
Definition demo_parsed : Namespace :=
  mkNamespace "data/train" "None" 224 1 "lars" 0 100 32 0.1 0.000001 0.9 "False" "True"
    1 0 8 8 "runs/exp1/" "localhost" "12355" 123 None ∅.

Definition demo_args : Namespace :=
  set_lr 0.08 (set_log_dir "runs/exp1" (set_world_size 8 demo_parsed)).

(** Two module instances that hold weights (1 and 2), two fresh ones of
    the same names and shapes (3 and 4), one of another shape (5); and a
    checkpoint of the first two on disk. *)
Definition demo_encoder : state_dict := {[ "conv.weight" := Tensor [2%nat] [1#2; 3#4]%Q ]}.
Definition demo_head : state_dict := {[ "fc.bias" := Tensor [1%nat] [5#1]%Q ]}.

Definition demo_heap : gmap loc state_dict :=
  <[1%positive := demo_encoder]>
    (<[2%positive := demo_head]>
       (<[3%positive := {[ "conv.weight" := Tensor [2%nat] [0; 0]%Q ]}]>
          (<[4%positive := {[ "fc.bias" := Tensor [1%nat] [0%Q] ]}]>
             (<[5%positive := {[ "fc.bias" := Tensor [7%nat] [] ]}]> ∅)))).

Definition demo_checkpoint : checkpoint :=
  <["head" := demo_head]> (<["encoder" := demo_encoder]> ∅).

Definition demo_disk : pystate :=
  PyState demo_heap {[ "pretrained.pth" := demo_checkpoint ]} None 0.

(** A namespace built by hand for a single process: the attributes
    [main] reads besides the declared options are there, two epochs of
    two batches each, no validation. *)
Definition demo_run_args : Namespace :=
  mkNamespace "data/train" "None" 224 1 "adam" 0.08 2 2 0.1 0.000001 0.9 "False" "False"
    1 0 1 8 "runs" "localhost" "12355" 123 (Some 1%Z)
    (<["model" := VStr "pretrained.pth"]>
       (<["arch_depth" := VModule 3]>
          (<["arch_width" := VModule 4]> (<["arch_sk" := VNone]> ∅)))).

Definition demo_loader : loader_obj :=
  DataLoader (ImageDataset "data/train" 224 1) 2 None true 8 true.

(** The same for one node of two devices. *)
Definition demo_pair_args : Namespace :=
  mkNamespace "data/train" "None" 224 1 "adam" 0.08 2 2 0.1 0.000001 0.9 "False" "False"
    1 0 2 8 "runs" "localhost" "12355" 123 (Some 2%Z)
    (<["model" := VStr "pretrained.pth"]>
       (<["arch_depth" := VModule 3]>
          (<["arch_width" := VModule 4]> (<["arch_sk" := VNone]> ∅)))).


(** What a trace shows of the metric log: the tag and the step of every
    scalar. *)
Definition log_of (ev : event) : list (string * nat) :=
  match ev with AddScalar tag _ step => [(tag, step)] | _ => [] end.

(** The epochs announced to the sampler. *)
Definition set_epoch_of (ev : event) : list nat :=
  match ev with SetEpoch e => [e] | _ => [] end.

(** The entries into a function of the training file. *)
Definition enter_of (ev : event) : list string :=
  match ev with Enter fn => [fn] | _ => [] end.

(** The scalars [train] logs for an epoch on the coordinating process. *)
Definition epoch_log (val_dataloader : option loader_obj) (epoch : nat) : list (string * nat) :=
  [("Loss/train", epoch)]
  ++ match val_dataloader with Some _ => [("Loss/validation", epoch)] | None => [] end
  ++ [("Misc/learning_rate", epoch)].

(** ** Collective calls *)

(** The two collective calls of the training file. *)
Inductive sync : Type := Reduce | Wait.

(** The collective calls a process makes along a run, in order. *)
Fixpoint syncs {A} (o : nat -> Q -> Q) (n : nat) (p : proc A) : list sync :=
  match p with
  | Ret _ | Raise _ => []
  | Emit _ k => syncs o n k
  | AllReduce v k => Reduce :: syncs o (S n) (k (o n v))
  | Barrier k => Wait :: syncs o n k
  end.

(** [wpc p Q]: whatever the peers answer at the reductions of [p], the
    collective calls [p] makes and its result satisfy [Q]. *)
Fixpoint wpc {A} (p : proc A) (Q : list sync -> exn + A -> Prop) : Prop :=
  match p with
  | Ret a => Q [] (inr a)
  | Raise e => Q [] (inl e)
  | Emit _ k => wpc k Q
  | AllReduce v k => forall w, wpc (k w) (fun cs r => Q (Reduce :: cs) r)
  | Barrier k => wpc k (fun cs r => Q (Wait :: cs) r)
  end.

(** The collective calls of one epoch of [train]: the reduction of the
    training loss, then the barrier that ends the epoch. *)
Definition epoch_syncs (distributed : bool) : list sync :=
  if distributed then [Reduce; Wait] else [].

(** The collective calls of the first [k] epochs. *)
Definition epochs_syncs (distributed : bool) (k : nat) : list sync :=
  concat (repeat (epoch_syncs distributed) k).

(** One process of a group about to call [train]. *)
Record trainer : Type := Trainer {
  t_model : model_obj;
  t_train_dataloader : loader_obj;
  t_val_dataloader : option loader_obj;
  t_criterion : criterion_obj;
  t_optimizer : optimizer_obj;
  t_scheduler : option scheduler_obj;
  t_writer : option writer_obj;
  t_sampler : option sampler_obj;
  t_local_rank : Z;
  t_state : pystate
}.

Definition trainer_call `{Framework} (epochs : Z) (t : trainer) : proc (unit * pystate) :=
  train (t_model t) epochs (t_train_dataloader t) (t_val_dataloader t) (t_criterion t)
    (t_optimizer t) (t_scheduler t) (t_writer t) (t_sampler t) (t_local_rank t) (t_state t).

(** The process belongs to a group and has what the epoch needs. *)
Definition trainer_ready `{Framework} (t : trainer) (epoch : nat) : Prop :=
  epoch_ready (t_model t) (t_train_dataloader t) (t_val_dataloader t) (t_writer t)
    (t_sampler t) (is_distributed (t_state t)) (group_rank (t_state t)) epoch.


(** ** What training leaves behind *)

(** The composite behind a model, wrapped or not. *)
Definition module_of (model : model_obj) : simclr :=
  match model with Plain m => m | DDP m => m end.

(** What [SimCLR.save] writes for a composite whose parameters are those
    of the heap [h]. *)
Definition snapshot (m : simclr) (h : gmap loc state_dict) : checkpoint :=
  <["head" := h !!! contrastive_head m]> (<["encoder" := h !!! encoder m]> ∅).

(** The parameters after the training passes of the epochs [0 .. k-1]. *)
Fixpoint heap_after `{Framework} (model : model_obj) (train_dataloader : loader_obj)
    (criterion : criterion_obj) (optimizer : optimizer_obj) (k : nat)
    (h : gmap loc state_dict) : gmap loc state_dict :=
  match k with
  | O => h
  | S k' =>
      epoch_heap model criterion optimizer
        (heap_after model train_dataloader criterion optimizer k' h)
        (batches train_dataloader k')
  end.

(** The state a completed turn of the epoch loop leaves: the parameters
    have gone through the pass and, on the process of rank 0, the clock
    has been read once and the checkpoint of the epoch holds the
    parameters. *)
Definition epoch_state `{Framework} (model : model_obj) (train_dataloader : loader_obj)
    (criterion : criterion_obj) (optimizer : optimizer_obj) (writer : option writer_obj)
    (rank : Z) (epoch : nat) (s : pystate) : pystate :=
  let h := epoch_heap model criterion optimizer (heap s) (batches train_dataloader epoch) in
  if (rank =? 0)%Z then
    match epoch_checkpoint writer epoch with
    | path :: _ =>
        PyState h (<[path := snapshot (module_of model) h]> (files s)) (dist_group s)
          (S (ticks s))
    | [] => PyState h (files s) (dist_group s) (S (ticks s))
    end
  else set_heap h s.

(** The state after the epochs [0 .. k-1]. *)
Fixpoint state_after `{Framework} (model : model_obj) (train_dataloader : loader_obj)
    (criterion : criterion_obj) (optimizer : optimizer_obj) (writer : option writer_obj)
    (rank : Z) (k : nat) (s : pystate) : pystate :=
  match k with
  | O => s
  | S k' =>
      epoch_state model train_dataloader criterion optimizer writer rank k'
        (state_after model train_dataloader criterion optimizer writer rank k' s)
  end.

(** ** Vocabulary for the entry point *)

(** The events [train] and the two passes can perform. *)
Definition train_event (ev : event) : bool :=
  match ev with
  | SetGradEnabled | SetEpoch _ | ModelTrain | ModelEval | OptimStep | SchedulerStep
  | Enter _ | Print _ | AddScalar _ _ _ | TorchSave _ => true
  | _ => false
  end.

(** The creation and the destruction of the process group. *)
Definition is_group (ev : event) : bool :=
  match ev with
  | InitProcessGroup _ _ | DestroyProcessGroup => true
  | _ => false
  end.

(** The directories created along a trace. *)
Definition makedirs_of (ev : event) : list string :=
  match ev with MakeDirs d => [d] | _ => [] end.

(** The directory [main] creates for the checkpoints of a run started
    when the clock reads [t] (line 402). *)
Definition checkpoint_dir `{Framework} (args : Namespace) (t : nat) : string :=
  log_dir args +:+ "_models/" +:+ strftime t "%Y-%m-%d_%H:%M:%S".

(** The learning rates logged along a trace. *)
Definition rate_of (ev : event) : list float :=
  match ev with AddScalar _ (SRate f) _ => [f] | _ => [] end.

(** ** More inputs to evaluate the definitions on *)

(** A group of two processes about to call [train]: the one of rank 0
    holds the writer. *)
Definition demo_group_state (rank : Z) : pystate := PyState demo_heap ∅ (Some (rank, 2%Z)) 0.

Definition demo_sampler (rank : Z) : sampler_obj :=
  DistributedSampler (ImageDataset "data/train" 224 1) 2 rank.

Definition demo_trainer (rank : Z) (writer : option writer_obj) : trainer :=
  Trainer (DDP demo_model) demo_loader None demo_criterion demo_optimizer None writer
    (Some (demo_sampler rank)) rank (demo_group_state rank).


(** The same group when the process of rank 0 has no writer. *)
Definition demo_broken_group : list trainer :=
  [demo_trainer 0 None; demo_trainer 1 None].

(** A framework in which a step adds 1 to every weight of the encoder. *)
Definition demo_learning : Framework := {|
  loss_item := fun _ _ _ b => inject_Z (Z.of_nat (batch_size_of b));
  backward_step := fun h model _ _ _ =>
    let l := encoder (module_of model) in
    <[l := (fun t => Tensor (shape t) (map (Qplus 1) (data t))) <$> (h !!! l)]> h;
  batches := fun dl pass =>
    repeat (Batch (Tensor [2%nat] []) (Tensor [2%nat] [])) (Z.to_nat (dl_batch_size dl));
  strftime := fun n _ => str_of_nat n;
  format_3f := fun _ => "0.000";
  get_last_lr := fun sch _ => param_group_lr (sched_optimizer sch)
|}.



(** The namespace of a single process with [model] set to ['original']. *)
Definition demo_original_args : Namespace :=
  mkNamespace "data/train" "None" 224 1 "adam" 0.08 2 2 0.1 0.000001 0.9 "False" "False"
    1 0 1 8 "runs" "localhost" "12355" 123 (Some 1%Z)
    (<["model" := VStr "original"]>
       (<["arch_depth" := VModule 3]>
          (<["arch_width" := VModule 4]> (<["arch_sk" := VNone]> ∅)))).

(** * Properties *)

(** ** Program trees *)

Lemma bind_eq {A B} (p : prog A) (f : A -> prog B) (s : pystate) :
  bind p f s = pbind (p s) (fun '(a, s') => f a s').
Proof. reflexivity. Qed.

Lemma pbind_emits {A B} (tr : list event) (p : proc A) (f : A -> proc B) :
  pbind (emits tr p) f = emits tr (pbind p f).
Proof. induction tr as [|ev tr IH]; simpl; [done | by rewrite IH]. Qed.

Lemma run_emits {A} o n (tr : list event) (p : proc A) :
  run o n (emits tr p) =
  Outcome (tr ++ trace (run o n p)) (reductions (run o n p)) (result (run o n p)).
Proof.
  induction tr as [|ev tr IH]; simpl.
  - by destruct (run o n p).
  - by rewrite IH.
Qed.

Lemma wp_mono {A X} (obs : event -> list X) (p : proc A)
    (Q Q' : list X -> exn + A -> Prop) :
  (forall xs r, Q xs r -> Q' xs r) -> wp obs p Q -> wp obs p Q'.
Proof.
  revert Q Q'. induction p as [a|e|ev k IH|v k IH|k IH]; simpl; intros Q Q' HQ Hp; eauto.
  eapply IH; [|exact Hp]. simpl. eauto.
Qed.

Lemma wp_pbind {A B X} (obs : event -> list X) (p : proc A) (f : A -> proc B)
    (Q : list X -> exn + B -> Prop) :
  wp obs p (fun xs r =>
              match r with
              | inr a => wp obs (f a) (fun ys r' => Q (xs ++ ys) r')
              | inl e => Q xs (inl e)
              end) ->
  wp obs (pbind p f) Q.
Proof.
  revert Q. induction p as [a|e|ev k IH|v k IH|k IH]; simpl; intros Q Hp.
  - eapply wp_mono; [|exact Hp]. done.
  - done.
  - apply IH. eapply wp_mono; [|exact Hp].
    intros xs [e|a]; simpl.
    + done.
    + apply wp_mono. intros ys r. by rewrite app_assoc.
  - intros w. apply IH, Hp.
  - apply IH, Hp.
Qed.

Lemma wp_emits_silent {A X} (obs : event -> list X) (tr : list event) (p : proc A)
    (Q : list X -> exn + A -> Prop) :
  Forall (fun ev => obs ev = []) tr -> wp obs p Q -> wp obs (emits tr p) Q.
Proof.
  induction 1 as [|ev tr Hev _ IH]; simpl; intros Hp; [done|].
  rewrite Hev. simpl. apply IH, Hp.
Qed.

(** What [wp] promises holds of every run. *)
Lemma wp_run {A X} (obs : event -> list X) (p : proc A) (Q : list X -> exn + A -> Prop) o n :
  wp obs p Q -> Q (observed obs (trace (run o n p))) (result (run o n p)).
Proof.
  revert Q n. induction p as [a|e|ev k IH|v k IH|k IH]; simpl; intros Q n Hp.
  - done.
  - done.
  - apply (IH (fun xs r => Q (obs ev ++ xs) r)). done.
  - apply IH, Hp.
  - apply IH, Hp.
Qed.

Lemma wp_bind {A B X} (obs : event -> list X) (p : prog A) (f : A -> prog B) s
    (Q : list X -> exn + (B * pystate) -> Prop) :
  wp obs (p s) (fun xs r =>
                  match r with
                  | inr (a, s') => wp obs (f a s') (fun ys r' => Q (xs ++ ys) r')
                  | inl e => Q xs (inl e)
                  end) ->
  wp obs (bind p f s) Q.
Proof.
  intros Hp. unfold bind. apply wp_pbind. eapply wp_mono; [|exact Hp].
  intros xs [e|[a s']]; done.
Qed.

(** ** Sums of rationals *)




(** ** One training pass *)

Section TrainOneEpoch.
Context `{Framework}.
Variables (model : model_obj) (criterion : criterion_obj) (optimizer : optimizer_obj).

Lemma set_heap_same s : set_heap (heap s) s = s.
Proof. by destruct s. Qed.

(** The loop of [train_one_epoch], from any point of the pass. *)
Lemma train_loop (bs : list batch) :
  forall (start : nat) (acc : Q) (st : option nat) (lo : option Q) (s : pystate),
  for_each (combine (seq start (length bs)) bs) (train_batch model criterion optimizer)
    (acc, st, lo) s
  = emits (repeat OptimStep (length bs))
      (Ret ((fold_left Qplus (epoch_losses model criterion optimizer (heap s) bs) acc,
             match length bs with O => st | S k => Some (start + k)%nat end,
             match bs with
             | [] => lo
             | _ => Some (List.last (epoch_losses model criterion optimizer (heap s) bs) 0%Q)
             end),
            set_heap (epoch_heap model criterion optimizer (heap s) bs) s)).
Proof.
  induction bs as [|b bs IH]; intros start acc st lo s.
  - simpl. unfold ret. by rewrite set_heap_same.
  - cbn [length seq combine for_each]. unfold bind at 1.
    cbn [train_batch bind get modify emit ret pbind].
    rewrite IH. cbn [heap set_heap repeat emits fold_right epoch_losses epoch_heap fold_left].
    apply (f_equal (Emit OptimStep)).
    apply (f_equal (fun x => fold_right Emit (Ret x) (repeat OptimStep (length bs)))).
    apply f_equal2; [|done].
    apply f_equal2; [apply f_equal2; [done|]|].
    + destruct (length bs); f_equal; lia.
    + destruct bs; done.
Qed.

(** With at least one batch, [train_one_epoch] performs one optimizer
    step per batch and divides the accumulated losses by their number;
    under distribution it then offers the quotient to the reduction. *)
Lemma train_one_epoch_nonempty (b : batch) (bs : list batch) (local_rank : Z)
    (distributed : bool) (s : pystate) :
  let ls := epoch_losses model criterion optimizer (heap s) (b :: bs) in
  let s' := set_heap (epoch_heap model criterion optimizer (heap s) (b :: bs)) s in
  let q := (fold_left Qplus ls 0 / inject_Z (Z.of_nat (length bs) + 1))%Q in
  train_one_epoch model (b :: bs) criterion optimizer local_rank distributed s
  = emits (repeat OptimStep (S (length bs)))
      (if distributed then AllReduce q (fun w => Ret (w, s')) else Ret (q, s')).
Proof.
  intros ls s' q. unfold train_one_epoch, enumerate.
  unfold bind at 1. rewrite train_loop, pbind_emits. f_equal.
  cbn [pbind length local Nat.add bind ret]. unfold py_truediv.
  replace (Z.of_nat (length bs) + 1 =? 0)%Z with false by (symmetry; apply Z.eqb_neq; lia).
  destruct distributed; reflexivity.
Qed.



(** C2, as the code has it. On an empty loader [train_one_epoch] stops at
    the normalisation of the loss because [step] was never assigned: the
    failure is an unbound local, no division is attempted, no step was
    taken and no reduction entered. On a loader with at least one batch
    the call returns. *)
Theorem train_one_epoch_empty_loader_unbound_step
    (local_rank : Z) (distributed : bool) (s : pystate) (o : nat -> Q -> Q) (n : nat) :
  run o n (train_one_epoch model [] criterion optimizer local_rank distributed s)
    = Outcome [] n (inl (UnboundLocalError "step")) /\
  forall b bs, exists r,
    result (run o n (train_one_epoch model (b :: bs) criterion optimizer
                       local_rank distributed s)) = inr r.
Proof.
  split; [reflexivity|]. intros b bs.
  rewrite train_one_epoch_nonempty, run_emits. destruct distributed; cbn; eauto.
Qed.

End TrainOneEpoch.

(** ** A training pass of a whole group *)

Section Group.
Context `{Framework}.







End Group.

(** ** Checkpoints *)

Section Checkpoint.








End Checkpoint.

(** ** Arguments *)

Section Arguments.

Lemma last_char_nonempty (s : string) : s <> "" -> exists c, last_char s = Some c.
Proof.
  unfold last_char. induction s as [|a s IH]; [done|]. intros _.
  cbn [String.length]. replace (S (String.length s) - 1)%nat with (String.length s) by lia.
  destruct s as [|b s]; [by exists a|].
  cbn [String.length String.get].
  destruct IH as [c Hc]; [done|]. exists c.
  cbn [String.length] in Hc. by replace (S (String.length s) - 1)%nat with (String.length s) in Hc by lia.
Qed.

(** [parse_args] adds [world_size] and no other attribute. *)
Lemma parse_args_attributes (parsed args : Namespace) :
  parse_args parsed = inr args ->
  world_size args = Some (nodes parsed * gpus parsed)%Z /\ extra args = extra parsed.
Proof.
  unfold parse_args. intros Hp.
  destruct (last_char _) as [c|]; [|done].
  destruct (Ascii.eqb c "/"), (PrimFloat.eqb _ _); cbn in Hp;
    try destruct (np_sqrt _); try injection Hp as <-; try done.
Qed.

(** C4. When [--lr] is 0 (and the log directory is not the empty string,
    and the total batch size fits a 64-bit machine integer, so that
    [parse_args] returns), the learning rate of the returned namespace is
    the double 0.005 times the square root of [batch_size * world_size],
    with [world_size = nodes * gpus]; for a batch size of 32 and a world
    size of 8 this is the double 0.08. *)
Theorem parse_args_square_root_rule (parsed : Namespace) :
  PrimFloat.eqb (lr parsed) 0%float = true ->
  log_dir parsed <> "" ->
  (- 2 ^ 63 <= batch_size parsed * (nodes parsed * gpus parsed) < 2 ^ 64)%Z ->
  exists args,
    parse_args parsed = inr args /\
    world_size args = Some (nodes parsed * gpus parsed)%Z /\
    lr args = (0.005 * PrimFloat.sqrt
                         (float_of_Z (batch_size parsed * (nodes parsed * gpus parsed))))%float /\
    (batch_size parsed = 32%Z -> (nodes parsed * gpus parsed)%Z = 8%Z ->
     lr args = 0.08%float).
Proof.
  intros Hlr Hdir Hrange.
  destruct (last_char_nonempty _ Hdir) as [c Hc].
  assert (Hsqrt : np_sqrt (batch_size parsed * (nodes parsed * gpus parsed))
                  = inr (PrimFloat.sqrt
                           (float_of_Z (batch_size parsed * (nodes parsed * gpus parsed))))).
  { unfold np_sqrt.
    replace (- 2 ^ 63 <=? _)%Z with true by (symmetry; apply Z.leb_le; lia).
    replace (_ <? 2 ^ 64)%Z with true by (symmetry; apply Z.ltb_lt; lia).
    reflexivity. }
  unfold parse_args. cbn [log_dir set_world_size]. rewrite Hc.
  destruct (Ascii.eqb c "/"); cbn [lr set_log_dir set_world_size batch_size];
    rewrite Hlr, Hsqrt; eexists; (split; [reflexivity|]);
    cbn [world_size lr set_lr set_log_dir set_world_size];
    (split; [reflexivity|]); (split; [reflexivity|]);
    intros Hb Hw; rewrite Hb, Hw; reflexivity.
Qed.

End Arguments.

(** ** The epoch loop *)

Section Train.
Context `{Framework}.

Lemma validate_loop (model : model_obj) (criterion : criterion_obj) (bs : list batch) :
  forall (start : nat) (acc : Q) (st : option nat) (s : pystate),
  for_each (combine (seq start (length bs)) bs) (validate_batch model criterion) (acc, st) s
  = Ret ((fold_left (fun a b => a + loss_item (heap s) model criterion b)%Q bs acc,
          match length bs with O => st | S k => Some (start + k)%nat end), s).
Proof.
  induction bs as [|b bs IH]; intros start acc st s; [done|].
  cbn [length seq combine for_each]. rewrite bind_eq.
  cbn [validate_batch bind get ret pbind]. rewrite IH. cbn [fold_left].
  do 3 f_equal. destruct (length bs); f_equal; lia.
Qed.

Lemma validate_one_epoch_eq (model : model_obj) (criterion : criterion_obj)
    (bs : list batch) (local_rank : Z) (s : pystate) :
  validate_one_epoch model bs criterion local_rank s
  = Emit (Enter "validate_one_epoch")
      match bs with
      | [] => Raise (UnboundLocalError "step")
      | _ :: bs' =>
          Ret ((fold_left (fun a b => a + loss_item (heap s) model criterion b) bs 0
                / inject_Z (Z.of_nat (length bs') + 1))%Q, s)
      end.
Proof.
  unfold validate_one_epoch, enumerate. rewrite bind_eq. cbn [emit pbind].
  rewrite bind_eq, validate_loop. destruct bs as [|b bs]; [reflexivity|].
  cbn [pbind length local Nat.add bind ret]. unfold py_truediv.
  replace (Z.of_nat (length bs) + 1 =? 0)%Z with false by (symmetry; apply Z.eqb_neq; lia).
  reflexivity.
Qed.

(** How a training pass looks to an observer that takes no interest in
    optimizer steps. *)
Lemma wp_train_one_epoch {X} (obs : event -> list X) (model : model_obj) (bs : list batch)
    (criterion : criterion_obj) (optimizer : optimizer_obj) (local_rank : Z)
    (distributed : bool) (s : pystate) (Q : list X -> exn + (Q * pystate) -> Prop) :
  obs OptimStep = [] ->
  match bs with
  | [] => Q [] (inl (UnboundLocalError "step"))
  | _ => forall q s', Q [] (inr (q, s'))
  end ->
  wp obs (train_one_epoch model bs criterion optimizer local_rank distributed s) Q.
Proof.
  intros Hobs HQ. destruct bs as [|b bs]; [exact HQ|].
  rewrite train_one_epoch_nonempty. apply wp_emits_silent.
  - generalize (S (length bs)). intros k. induction k; simpl; constructor; done.
  - destruct distributed; simpl; eauto.
Qed.

Lemma wp_validate_one_epoch {X} (obs : event -> list X) (model : model_obj) (bs : list batch)
    (criterion : criterion_obj) (local_rank : Z) (s : pystate)
    (Q : list X -> exn + (Q * pystate) -> Prop) :
  match bs with
  | [] => Q (obs (Enter "validate_one_epoch") ++ []) (inl (UnboundLocalError "step"))
  | _ => forall q, Q (obs (Enter "validate_one_epoch") ++ []) (inr (q, s))
  end ->
  wp obs (validate_one_epoch model bs criterion local_rank s) Q.
Proof.
  intros HQ. rewrite validate_one_epoch_eq. destruct bs as [|b bs]; simpl; eauto.
Qed.

End Train.

(** ** Stepping through a program

    [wp_step] follows the syntax of the program: a [bind] splits, a
    branch on a value met for the first time opens its cases, a call
    unfolds, and the two passes are taken by their rules above. *)

Ltac split_scrutinee x :=
  lazymatch x with
  | match ?y with _ => _ end => split_scrutinee y
  | rsplit _ _ => unfold rsplit
  | _ => destruct x eqn:?
  end.

Ltac prog_head p :=
  lazymatch p with
  | ?f _ => prog_head f
  | _ => p
  end.

Ltac wp_step :=
  lazymatch goal with
  | |- wp _ (bind _ _ _) _ => apply wp_bind
  | |- wp _ (Ret _) _ => cbn [wp]
  | |- wp _ (Raise _) _ => cbn [wp]
  | |- wp _ (Emit _ _) _ => cbn [wp]
  | |- wp _ (AllReduce _ _) _ => cbn [wp]; intro
  | |- wp _ (Barrier _) _ => cbn [wp]
  | |- wp _ (train_one_epoch _ _ _ _ _ _ _) _ => apply wp_train_one_epoch; [reflexivity|]
  | |- wp _ (validate_one_epoch _ _ _ _ _) _ => apply wp_validate_one_epoch
  | |- wp _ (for_each _ _ _ _) _ => fail
  | |- wp _ (train _ _ _ _ _ _ _ _ _ _ _) _ => fail
  | |- wp _ (match ?x with _ => _ end) _ => split_scrutinee x
  | |- wp _ ((match ?x with _ => _ end) _) _ => split_scrutinee x
  | |- wp _ ?p _ => let h := prog_head p in unfold h
  | |- match ?x with _ => _ end => split_scrutinee x
  | |- forall _, _ => intro
  end; cbv beta iota zeta.

Ltac use_rank :=
  match goal with
  | Hz : (?r =? 0)%Z = true, Hr : ?r = 0%Z -> _ |- _ =>
      let Hv := fresh "Hv" in let Hc := fresh "Hc" in let Hw := fresh "Hw" in
      apply Z.eqb_eq in Hz; destruct (Hr Hz) as (Hv & Hc & Hw)
  end.

(** ** Checkpoints of the epochs *)

Section Saves.
Context `{Framework}.

(** A turn of the loop that fails has written no checkpoint; one that
    completes has written exactly the checkpoint of its epoch on the
    process of rank 0 and none elsewhere; and a turn that has what it
    needs completes. *)
Lemma train_epoch_saves (model : model_obj) (train_dataloader : loader_obj)
    (val_dataloader : option loader_obj) (criterion : criterion_obj)
    (optimizer : optimizer_obj) (scheduler : option scheduler_obj)
    (writer : option writer_obj) (sampler : option sampler_obj) (local_rank : Z)
    (distributed : bool) (rank : Z) (epoch : nat) (val_loss : option Q) (s : pystate) :
  wp save_of
    (train_epoch model train_dataloader val_dataloader criterion optimizer scheduler writer
       sampler local_rank distributed rank epoch val_loss s)
    (fun xs r =>
       match r with
       | inl _ => xs = []
       | inr _ =>
           if (rank =? 0)%Z
           then exists p, xs = [p] /\ epoch_checkpoint writer epoch = [p]
           else xs = []
       end /\
       (epoch_ready model train_dataloader val_dataloader writer sampler distributed rank epoch ->
        exists x, r = inr x)).
Proof.
  unfold epoch_ready, wrapped_as, epoch_checkpoint.
  repeat wp_step.
  all: cbn [save_of app].
  all: (split; [ try done; try (by eexists)
               | intros (Hs & Hb & Hr); try (eexists; reflexivity); exfalso ]).
  all: try done.
  all: try (by apply Hs).
  all: try use_rank.
  all: try done.
  all: try (by eapply Hv).
Qed.

(** The epochs [start .. start + len - 1] in turn: [k] of them complete. *)
Lemma train_loop_saves (model : model_obj) (train_dataloader : loader_obj)
    (val_dataloader : option loader_obj) (criterion : criterion_obj)
    (optimizer : optimizer_obj) (scheduler : option scheduler_obj)
    (writer : option writer_obj) (sampler : option sampler_obj) (local_rank : Z)
    (distributed : bool) (rank : Z) (len : nat) :
  forall (start : nat) (val_loss : option Q) (s : pystate),
  wp save_of
    (for_each (seq start len)
       (train_epoch model train_dataloader val_dataloader criterion optimizer scheduler writer
          sampler local_rank distributed rank) val_loss s)
    (fun xs r =>
       (exists k, (k <= len)%nat /\
          (if (rank =? 0)%Z
           then xs = flat_map (epoch_checkpoint writer) (seq start k) /\ length xs = k
           else xs = []) /\
          (forall x, r = inr x -> k = len)) /\
       ((forall e, (start <= e < start + len)%nat ->
           epoch_ready model train_dataloader val_dataloader writer sampler distributed rank e) ->
        exists x, r = inr x)).
Proof.
  induction len as [|len IH]; intros start val_loss s.
  - simpl. split; [|eauto]. exists 0%nat. destruct (rank =? 0)%Z; done.
  - cbn [seq for_each]. apply wp_bind.
    eapply wp_mono; [|apply train_epoch_saves].
    intros xs [e|[vl s']] [Hxs Hok].
    + subst xs. split.
      * exists 0%nat. split; [lia|]. split; [by destruct (rank =? 0)%Z | done].
      * intros Hready. destruct Hok as [x Hx]; [apply Hready; lia | done].
    + eapply wp_mono; [|apply IH].
      intros ys r [(k & Hk & Hys & Hdone) Hok']. split.
      * exists (S k). split; [lia|]. split; [|intros x Hx; f_equal; eauto].
        destruct (rank =? 0)%Z; [|by subst].
        destruct Hxs as (p & -> & Hp), Hys as (-> & Hlen).
        cbn [seq flat_map]. rewrite Hp. cbn [app length]. by rewrite Hlen.
      * intros Hready. apply Hok'. intros e He. apply Hready. lia.
Qed.

(** [train] as a whole. *)
Lemma train_saves (model : model_obj) (epochs : Z) (train_dataloader : loader_obj)
    (val_dataloader : option loader_obj) (criterion : criterion_obj)
    (optimizer : optimizer_obj) (scheduler : option scheduler_obj)
    (writer : option writer_obj) (sampler : option sampler_obj) (local_rank : Z)
    (s : pystate) :
  wp save_of
    (train model epochs train_dataloader val_dataloader criterion optimizer scheduler writer
       sampler local_rank s)
    (fun xs r =>
       (exists k, (k <= Z.to_nat epochs)%nat /\
          (if (group_rank s =? 0)%Z
           then xs = flat_map (epoch_checkpoint writer) (seq 0 k) /\ length xs = k
           else xs = []) /\
          (forall x, r = inr x -> k = Z.to_nat epochs)) /\
       ((forall e, (e < Z.to_nat epochs)%nat ->
           epoch_ready model train_dataloader val_dataloader writer sampler
             (is_distributed s) (group_rank s) e) ->
        exists x, r = inr x)).
Proof.
  unfold train, group_rank, is_distributed.
  apply wp_bind. cbn [get wp]. cbv beta iota.
  assert (Hloop := fun d r => train_loop_saves model train_dataloader val_dataloader criterion
                     optimizer scheduler writer sampler local_rank d r (Z.to_nat epochs) 0%nat
                     None s).
  destruct (dist_group s) as [[r w]|]; cbv beta iota.
  all: apply wp_bind; cbn [emit wp save_of app]; cbv beta iota.
  all: apply wp_bind; (eapply wp_mono; [|apply Hloop]).
  all: intros xs [e|[vl s']] [(k & Hk & Hxs & Hdone) Hok]; cbn [ret wp]; rewrite ?app_nil_r.
  all: split.
  all: try (exists k; split; [done|]; split; [done|]; intros x Hx; try done;
            eapply Hdone; reflexivity).
  all: intros Hready; try (by eexists).
  all: destruct Hok as [x Hx]; [intros e' He'; apply Hready; lia | done].
Qed.

End Saves.

(** ** Paths *)

Section Paths.

Lemma rsplit_last_absent (sep : ascii) (s : string) :
  has_char sep s = false -> rsplit_last sep s = None.
Proof.
  induction s as [|c s IH]; [done|]. cbn [has_char rsplit_last].
  intros [Hc Hs]%orb_false_iff. by rewrite IH, Hc.
Qed.

(** Splitting at the last separator gives back the two parts around it. *)
Lemma rsplit_last_join (sep : ascii) (outer inner : string) :
  has_char sep inner = false ->
  rsplit_last sep (outer +:+ String sep inner) = Some (outer, inner).
Proof.
  intros Hinner. induction outer as [|c outer IH]; simpl.
  - by rewrite rsplit_last_absent, Ascii.eqb_refl.
  - by rewrite IH.
Qed.

Lemma length_append (s t : string) :
  String.length (s +:+ t) = (String.length s + String.length t)%nat.
Proof. induction s as [|c s IH]; simpl; [done | by rewrite IH]. Qed.

Lemma append_inj_r (a b t : string) : a +:+ t = b +:+ t -> a = b.
Proof.
  revert b. induction a as [|c a IH]; intros [|d b] Heq; simpl in Heq.
  - done.
  - apply (f_equal String.length) in Heq. rewrite !length_append in Heq.
    cbn [String.length] in Heq. lia.
  - apply (f_equal String.length) in Heq. rewrite !length_append in Heq.
    cbn [String.length] in Heq. lia.
  - injection Heq as -> Heq. f_equal. by apply IH.
Qed.

Lemma str_of_nat_inj (n m : nat) : str_of_nat n = str_of_nat m -> n = m.
Proof.
  unfold str_of_nat. intros Heq.
  apply (f_equal NilEmpty.uint_of_string) in Heq. rewrite !NilEmpty.usu in Heq.
  injection Heq as Heq. apply (f_equal Nat.of_uint) in Heq.
  by rewrite !DecimalNat.Unsigned.of_to in Heq.
Qed.

(** Two epochs never share a checkpoint file. *)
Lemma checkpoint_path_inj (outer inner : string) (e1 e2 : nat) :
  checkpoint_path outer inner e1 = checkpoint_path outer inner e2 -> e1 = e2.
Proof.
  unfold checkpoint_path. intros Heq.
  do 4 apply String.app_inj in Heq.
  apply append_inj_r, str_of_nat_inj in Heq. lia.
Qed.

Lemma epoch_checkpoints_of_split (w : writer_obj) (outer inner : string) (start k : nat) :
  rsplit_last "/" (writer_log_dir w) = Some (outer, inner) ->
  flat_map (epoch_checkpoint (Some w)) (seq start k)
  = map (checkpoint_path outer inner) (seq start k).
Proof.
  intros Hsplit. revert start. induction k as [|k IH]; intros start; [done|].
  cbn [seq flat_map map]. rewrite IH. unfold epoch_checkpoint. by rewrite Hsplit.
Qed.


End Paths.

(** ** Who writes what *)

Section Effects.
Context `{Framework}.

Lemma wp_for_each_nothing {X L Y} (obs : event -> list Y) (xs : list X)
    (body : X -> L -> prog L) :
  (forall x l s, wp obs (body x l s) (fun ys _ => ys = [])) ->
  forall l s, wp obs (for_each xs body l s) (fun ys _ => ys = []).
Proof.
  intros Hbody. induction xs as [|x xs IH]; intros l s; [done|].
  cbn [for_each]. apply wp_bind. eapply wp_mono; [|apply Hbody].
  intros ys [e|[l' s']] ->; [done|]. apply IH.
Qed.



(** Without a validation loader a turn of the loop neither enters
    [validate_one_epoch] nor logs [Loss/validation]. *)
Lemma train_epoch_no_validation (model : model_obj) (train_dataloader : loader_obj)
    (criterion : criterion_obj)
    (optimizer : optimizer_obj) (scheduler : option scheduler_obj)
    (writer : option writer_obj) (sampler : option sampler_obj) (local_rank : Z)
    (distributed : bool) (rank : Z) (epoch : nat) (val_loss : option Q) (s : pystate) :
  wp (only is_validation)
    (train_epoch model train_dataloader None criterion optimizer scheduler writer
       sampler local_rank distributed rank epoch val_loss s)
    (fun xs _ => xs = []).
Proof. repeat wp_step; done. Qed.

Lemma train_no_validation (model : model_obj) (epochs : Z) (train_dataloader : loader_obj)
    (criterion : criterion_obj)
    (optimizer : optimizer_obj) (scheduler : option scheduler_obj)
    (writer : option writer_obj) (sampler : option sampler_obj) (local_rank : Z)
    (s : pystate) :
  wp (only is_validation)
    (train model epochs train_dataloader None criterion optimizer scheduler writer
       sampler local_rank s)
    (fun xs _ => xs = []).
Proof.
  unfold train.
  apply wp_bind. cbn [get wp]. cbv beta iota.
  destruct (dist_group s) as [[r w]|]; cbv beta iota.
  all: apply wp_bind; cbn [emit wp]; cbv beta iota.
  all: apply wp_bind; (eapply wp_mono; [|apply wp_for_each_nothing]).
  all: try (intros; by apply train_epoch_no_validation).
  all: by intros xs [e|[l s']] ->.
Qed.

End Effects.

(** ** The entry point *)

Section Main.
Context `{Framework}.



(** With the sentinel for [--val_dataset], [main] reaches [train] without
    a validation loader and has not validated by then. *)
Lemma main_prepare_no_validation (local_rank : Z) (args : Namespace) (s : pystate) :
  val_dataset args = "None" ->
  wp (only is_validation) (main_prepare local_rank args s)
    (fun xs r => xs = [] /\ forall l s', r = inr (l, s') -> l_val_dataloader l = None).
Proof.
  intros Hval. unfold main_prepare. cbv zeta.
  assert (Hb : String.eqb (val_dataset args) "None" = true) by (by rewrite Hval).
  destruct (String.eqb (val_dataset args) "None"); [|done]. cbv beta iota.
  repeat wp_step.
  all: split; [done|]; intros l' s'' Hr; try done.
  all: by injection Hr as <- <-.
Qed.

Lemma main_no_validation (local_rank : Z) (args : Namespace) (s : pystate) :
  val_dataset args = "None" ->
  wp (only is_validation) (main local_rank args s) (fun xs _ => xs = []).
Proof.
  intros Hval. unfold main. apply wp_bind.
  eapply wp_mono; [|by apply main_prepare_no_validation].
  intros xs [e|[l s']] [-> Hv]; [done|]. rewrite (Hv _ _ eq_refl).
  apply wp_bind. eapply wp_mono; [|apply train_no_validation].
  intros ys [e|[[] s'']] ->; [done|].
  repeat wp_step; done.
Qed.



(** On a namespace that has [world_size] and no attribute besides the
    declared options, [main] gets no further than the reading of
    [args.model]. *)
Lemma main_prepare_fails (local_rank w : Z) (args : Namespace) (s : pystate) :
  world_size args = Some w ->
  extra args = ∅ ->
  wp (only is_training) (main_prepare local_rank args s)
    (fun xs r => xs = [] /\
       exists e, r = inl e /\ (dist_group s = None -> e = AttributeError "model")).
Proof.
  intros Hw Hextra. unfold main_prepare, get_world_size, getattr. cbv zeta.
  rewrite Hw.
  destruct (extra args !! "model") as [v|] eqn:Hmodel;
    [by rewrite Hextra, lookup_empty in Hmodel|].
  repeat wp_step.
  all: split; [done|]; eexists; split; [done|]; intros Hd; congruence.
Qed.

(** C3. For every namespace that [parse_args] returns on the result of
    the argument parser, [main] raises before any step of training
    (no switch to training mode, no optimizer step, no step of the
    schedule): on a process without a process group yet the exception is
    the [AttributeError] for [args.model]; [model], [arch_depth],
    [arch_width] and [arch_sk], which [main] reads to call [SimCLR.load],
    are attributes the namespace does not have. *)
Theorem main_fails_before_training
    (parsed args : Namespace) (local_rank : Z) (s : pystate) (o : nat -> Q -> Q) (n : nat) :
  from_argparse parsed ->
  parse_args parsed = inr args ->
  let r := run o n (main local_rank args s) in
  (exists e, result r = inl e) /\
  observed (only is_training) (trace r) = [] /\
  (dist_group s = None -> result r = inl (AttributeError "model")) /\
  extra args !! "model" = None /\ extra args !! "arch_depth" = None /\
  extra args !! "arch_width" = None /\ extra args !! "arch_sk" = None.
Proof.
  intros (Hextra & _) Hparse r.
  destruct (parse_args_attributes _ _ Hparse) as [Hw Hsame].
  rewrite Hextra in Hsame.
  assert (Hmain : wp (only is_training) (main local_rank args s)
            (fun xs r => xs = [] /\
               exists e, r = inl e /\ (dist_group s = None -> e = AttributeError "model"))).
  { unfold main. apply wp_bind.
    eapply wp_mono; [|by eapply main_prepare_fails].
    intros xs [e|[l s']] (-> & e' & He & Hd); [|done].
    injection He as ->. split; [done|]. by exists e'. }
  apply (wp_run _ _ _ o n) in Hmain. fold r in Hmain.
  destruct Hmain as (Htr & e & He & Hd).
  rewrite Hsame, !lookup_empty. repeat split; eauto.
  intros Hnone. by rewrite He, Hd.
Qed.

(** C5. The checkpoints [train] writes are, in order, those of the epochs
    0, 1, ..., each at the path made of the part of the writer's log
    directory before its last [/], then [_models/], the part after that
    [/], and [/epoch_<e+1>.pth] for the epoch of index [e]; a
    coordinating process whose call returns has written one for every
    epoch. For the log directory [runs/exp1] and the epoch of index 4
    the path is [runs_models/exp1/epoch_5.pth], of final segment
    [epoch_5.pth]. *)
Theorem checkpoint_path_of_epoch
    (model : model_obj) (epochs : Z) (train_dataloader : loader_obj)
    (val_dataloader : option loader_obj) (criterion : criterion_obj)
    (optimizer : optimizer_obj) (scheduler : option scheduler_obj)
    (w : writer_obj) (sampler : option sampler_obj) (local_rank : Z)
    (s : pystate) (o : nat -> Q -> Q) (n : nat) (outer inner : string) :
  writer_log_dir w = outer +:+ "/" +:+ inner ->
  has_char "/" inner = false ->
  let r := run o n (train model epochs train_dataloader val_dataloader criterion optimizer
                      scheduler (Some w) sampler local_rank s) in
  (exists k, (k <= Z.to_nat epochs)%nat /\
     saved_paths (trace r)
     = map (fun e => outer +:+ "_models/" +:+ inner +:+ "/epoch_" +:+ str_of_nat (e + 1)
                       +:+ ".pth") (seq 0 k) /\
     (group_rank s = 0%Z -> forall x, result r = inr x -> k = Z.to_nat epochs)) /\
  epoch_checkpoint (Some (SummaryWriter "runs/exp1")) 4 = ["runs_models/exp1/epoch_5.pth"] /\
  rsplit "runs_models/exp1/epoch_5.pth" "/" = ["runs_models/exp1"; "epoch_5.pth"].
Proof.
  intros Hdir Hinner r. split; [|split; reflexivity].
  assert (Hsplit : rsplit_last "/" (writer_log_dir w) = Some (outer, inner)).
  { rewrite Hdir. by apply rsplit_last_join. }
  pose proof (train_saves model epochs train_dataloader val_dataloader criterion optimizer
                scheduler (Some w) sampler local_rank s) as Hwp.
  apply (wp_run _ _ _ o n) in Hwp. fold r in Hwp.
  destruct Hwp as [(k & Hk & Hxs & Hdone) _].
  destruct (Z.eqb_spec (group_rank s) 0) as [Hz|Hnz].
  - exists k. split; [done|]. split; [|by intros _].
    destruct Hxs as [Hxs _]. unfold saved_paths. rewrite Hxs.
    by rewrite (epoch_checkpoints_of_split _ _ _ _ _ Hsplit).
  - exists 0%nat. split; [lia|]. split; [|done]. unfold saved_paths. by rewrite Hxs.
Qed.


(** C8. When [--val_dataset] is the string [None], the validation loader
    [main] hands to [train] is [None], and along the whole of [main]
    [validate_one_epoch] is never entered and no scalar is logged under
    [Loss/validation]. *)
Theorem no_validation_without_val_dataset
    (local_rank : Z) (args : Namespace) (s : pystate) (o : nat -> Q -> Q) (n : nat) :
  val_dataset args = "None" ->
  (forall l s', result (run o n (main_prepare local_rank args s)) = inr (l, s') ->
     l_val_dataloader l = None) /\
  observed (only is_validation) (trace (run o n (main local_rank args s))) = [].
Proof.
  intros Hval. split.
  - exact (proj2 (wp_run _ _ _ o n (main_prepare_no_validation local_rank args s Hval))).
  - exact (wp_run _ _ _ o n (main_no_validation local_rank args s Hval)).
Qed.

End Main.

(** ** Worked instances *)

Section Instances.
#[local] Existing Instance demo_framework.


(** C2 as stated fails on the empty loader: the call fails, but not by
    a division by zero. *)
Lemma empty_loader_is_not_a_division_by_zero :
  result (run demo_oracle 0
            (train_one_epoch (Plain demo_model) [] demo_criterion demo_optimizer 0 false
               demo_state)) = inl (UnboundLocalError "step") /\
  result (run demo_oracle 0
            (train_one_epoch (Plain demo_model) [] demo_criterion demo_optimizer 0 false
               demo_state)) <> inl ZeroDivisionError.
Proof. split; [reflexivity | discriminate]. Qed.

(** C3 at the default command line. *)
Lemma main_fails_before_training_witness :
  from_argparse demo_parsed /\
  parse_args demo_parsed = inr demo_args /\
  result (run demo_oracle 0 (main 0 demo_args demo_state)) = inl (AttributeError "model").
Proof.
  assert (Hfrom : from_argparse demo_parsed).
  { unfold from_argparse. cbn. repeat split; auto. }
  assert (Hparse : parse_args demo_parsed = inr demo_args) by reflexivity.
  split; [exact Hfrom|]. split; [exact Hparse|].
  apply (main_fails_before_training demo_parsed demo_args 0 demo_state demo_oracle 0
           Hfrom Hparse).
  reflexivity.
Defined.

(** C4 at the default command line: batch size 32 on one node of 8
    devices. *)
Lemma parse_args_square_root_rule_witness :
  exists args, parse_args demo_parsed = inr args /\ lr args = 0.08%float.
Proof.
  destruct (parse_args_square_root_rule demo_parsed) as (args & Hp & _ & _ & Hlr).
  - reflexivity.
  - discriminate.
  - cbn. lia.
  - exists args. split; [exact Hp|]. apply Hlr; reflexivity.
Defined.

(** C5 at the log directory [runs/exp1] and two epochs. *)
Lemma checkpoint_path_of_epoch_witness :
  saved_paths
    (trace (run demo_oracle 0
              (train (Plain demo_model) 2 demo_loader None demo_criterion demo_optimizer None
                 (Some (SummaryWriter "runs/exp1")) None 0 demo_state)))
  = ["runs_models/exp1/epoch_1.pth"; "runs_models/exp1/epoch_2.pth"].
Proof.
  destruct (checkpoint_path_of_epoch (Plain demo_model) 2 demo_loader None demo_criterion
              demo_optimizer None (SummaryWriter "runs/exp1") None 0 demo_state demo_oracle 0
              "runs" "exp1" eq_refl eq_refl) as [(k & Hk & Hs & Hd) _].
  assert (Hr : exists x,
             result (run demo_oracle 0
                       (train (Plain demo_model) 2 demo_loader None demo_criterion
                          demo_optimizer None (Some (SummaryWriter "runs/exp1")) None 0
                          demo_state)) = inr x)
    by (vm_compute; eexists; reflexivity).
  destruct Hr as [x Hx]. rewrite (Hd eq_refl x Hx) in Hs. exact Hs.
Defined.



(** C8 on a single process that runs the whole of [main]. *)
Lemma no_validation_without_val_dataset_witness :
  (exists x, result (run demo_oracle 0 (main 0 demo_run_args demo_disk)) = inr x) /\
  observed (only is_validation) (trace (run demo_oracle 0 (main 0 demo_run_args demo_disk))) = [].
Proof.
  split.
  - vm_compute. eexists. reflexivity.
  - apply (no_validation_without_val_dataset 0 demo_run_args demo_disk demo_oracle 0).
    reflexivity.
Defined.



End Instances.

(** * Further properties of the two files *)

(** ** The two passes *)

Section Passes.
Context `{Framework}.




(** [get_optimizer] returns exactly for the names [lars] and [adam]:
    the scheduler it returns is built on the optimizer it returns, with
    the number of epochs as its period, and the optimizer carries the
    given learning rate. For any other name it raises (the schedule is
    built on the name itself). In no case does it emit an event or touch
    the state. *)
Lemma get_optimizer_names
    (model : model_obj) (epochs : Z) (name : string)
    (learning_rate weight_decay momentum : float) (nesterov : string) (s : pystate) :
  let call := get_optimizer model epochs name learning_rate weight_decay momentum nesterov s in
  (name = "lars" \/ name = "adam" ->
   exists opt, call = Ret ((opt, CosineAnnealingLR opt epochs), s) /\
               param_group_lr opt = learning_rate) /\
  (name <> "lars" -> name <> "adam" -> call = Raise (TypeError "str is not an Optimizer")).
Proof.
  intros call. subst call. unfold get_optimizer. split.
  - intros [-> | ->]; cbn; eexists; split; reflexivity.
  - intros Hl Ha.
    apply String.eqb_neq in Hl, Ha. rewrite Hl, Ha. reflexivity.
Qed.

End Passes.

(** ** More on the arguments *)

Section MoreArguments.

Lemma length_append_char (d : string) (c : ascii) :
  (String.length (d +:+ String c "") - 1)%nat = String.length d.
Proof. rewrite length_append. cbn [String.length]. lia. Qed.

Lemma get_append_char (d : string) (c : ascii) :
  String.get (String.length d) (d +:+ String c "") = Some c.
Proof. induction d as [|a d IH]; [done|]. exact IH. Qed.

Lemma substring_append (d t : string) : String.substring 0 (String.length d) (d +:+ t) = d.
Proof.
  induction d as [|a d IH]; simpl.
  - by destruct t.
  - by rewrite IH.
Qed.

Lemma last_char_append (d : string) (c : ascii) : last_char (d +:+ String c "") = Some c.
Proof. unfold last_char. by rewrite length_append_char, get_append_char. Qed.

Lemma drop_last_char_append (d : string) (c : ascii) : drop_last_char (d +:+ String c "") = d.
Proof. unfold drop_last_char. by rewrite length_append_char, substring_append. Qed.

Lemma last_char_split_cons (s : string) :
  forall (a c : ascii),
  String.get (String.length s) (String a s) = Some c ->
  String a s = String.substring 0 (String.length s) (String a s) +:+ String c "".
Proof.
  induction s as [|b s IH]; intros a c Hc.
  - cbn in Hc. injection Hc as ->. reflexivity.
  - change (String.get (String.length s) (String b s) = Some c) in Hc.
    change (String a (String b s)
            = String a (String.substring 0 (String.length s) (String b s) +:+ String c "")).
    f_equal. by apply IH.
Qed.

(** A string with a last character is what precedes it followed by it. *)
Lemma last_char_split (s : string) (c : ascii) :
  last_char s = Some c -> s = drop_last_char s +:+ String c "".
Proof.
  unfold last_char, drop_last_char. destruct s as [|a s]; [done|].
  cbn [String.length]. replace (S (String.length s) - 1)%nat with (String.length s) by lia.
  apply last_char_split_cons.
Qed.

(** X4. [parse_args] keeps every declared option as parsed except
    [log_dir] and [lr], adds [world_size], the product of [nodes] and
    [gpus], and no other
    attribute; a learning rate that does not compare equal to 0 is kept
    as well. *)
Theorem parse_args_frame (parsed args : Namespace) :
  parse_args parsed = inr args ->
  train_dataset args = train_dataset parsed /\ val_dataset args = val_dataset parsed /\
  size args = size parsed /\ jitter args = jitter parsed /\
  optimizer args = optimizer parsed /\ epochs args = epochs parsed /\
  batch_size args = batch_size parsed /\ temperature args = temperature parsed /\
  weight_decay args = weight_decay parsed /\ momentum args = momentum parsed /\
  nesterov args = nesterov parsed /\ scheduler args = scheduler parsed /\
  nodes args = nodes parsed /\ node_index args = node_index parsed /\
  gpus args = gpus parsed /\ workers args = workers parsed /\
  master_address args = master_address parsed /\ master_port args = master_port parsed /\
  seed args = seed parsed /\
  world_size args = Some (nodes parsed * gpus parsed)%Z /\
  extra args = extra parsed /\
  (PrimFloat.eqb (lr parsed) 0%float = false -> lr args = lr parsed).
Proof.
  unfold parse_args. intros Hp.
  destruct (last_char _) as [c|]; [|done].
  destruct (Ascii.eqb c "/"), (PrimFloat.eqb (lr parsed) 0) eqn:Hlr; cbn in Hp;
    rewrite ?Hlr in Hp;
    try destruct (np_sqrt _); try injection Hp as <-; try done; cbn;
    repeat split; done.
Qed.

(** X5. [parse_args] removes exactly one trailing [/] from [log_dir]: a
    directory [d/] becomes [d] (so [d//] becomes [d/]), and a directory
    that does not end in [/] is kept. *)
Theorem parse_args_strips_one_slash (parsed args : Namespace) :
  parse_args parsed = inr args ->
  (forall d, log_dir parsed = d +:+ "/" -> log_dir args = d) /\
  ((forall d, log_dir parsed <> d +:+ "/") -> log_dir args = log_dir parsed).
Proof.
  unfold parse_args. cbn [log_dir set_world_size]. intros Hp.
  destruct (last_char (log_dir parsed)) as [c|] eqn:Hc; [|done].
  assert (Hdir : log_dir args
                 = if Ascii.eqb c "/" then drop_last_char (log_dir parsed) else log_dir parsed).
  { destruct (Ascii.eqb c "/"), (PrimFloat.eqb _ _); cbn in Hp;
      try destruct (np_sqrt _); try injection Hp as <-; done. }
  split.
  - intros d Hd. rewrite Hd in Hc, Hdir. rewrite last_char_append in Hc.
    injection Hc as <-. by rewrite Hdir, drop_last_char_append.
  - intros Hno. destruct (Ascii.eqb_spec c "/") as [->|_]; [|done].
    destruct (Hno _ (last_char_split _ _ Hc)).
Qed.

(** X6. [parse_args] raises [IndexError] exactly when [log_dir] is the
    empty string, whatever the other options; with a non-empty [log_dir]
    and a learning rate that does not compare equal to 0 it returns. *)
Theorem parse_args_empty_log_dir (parsed : Namespace) :
  (log_dir parsed = "" <-> parse_args parsed = inl IndexError) /\
  (log_dir parsed <> "" -> PrimFloat.eqb (lr parsed) 0%float = false ->
   exists args, parse_args parsed = inr args).
Proof.
  unfold parse_args. cbn [log_dir set_world_size]. split; [split|].
  - intros ->. reflexivity.
  - intros Hp. destruct (log_dir parsed) as [|a d] eqn:Hd; [done|].
    destruct (last_char_nonempty (String a d)) as [c Hc]; [done|].
    rewrite Hc in Hp.
    destruct (Ascii.eqb c "/"), (PrimFloat.eqb _ _); cbn in Hp; try done;
      unfold np_sqrt in Hp; destruct (_ && _); done.
  - intros Hne Hlr. destruct (last_char_nonempty _ Hne) as [c ->].
    destruct (Ascii.eqb c "/"); cbn [lr set_log_dir set_world_size]; rewrite Hlr; eauto.
Qed.

End MoreArguments.

(** ** More on checkpoints *)

Section MoreCheckpoint.




End MoreCheckpoint.

(** ** More on the epoch loop *)

Section MoreTrain.
Context `{Framework}.

(** What a call of [train] that returns has shown, from what each of its
    turns that returns shows. *)
Lemma train_loop_returning {X} (obs : event -> list X) (expect : nat -> list X)
    (body : nat -> option Q -> prog (option Q)) (len : nat) :
  (forall epoch vl s, wp obs (body epoch vl s) (fun xs r => forall x, r = inr x -> xs = expect epoch)) ->
  forall (start : nat) (val_loss : option Q) (s : pystate),
  wp obs (for_each (seq start len) body val_loss s)
    (fun xs r => forall x, r = inr x -> xs = flat_map expect (seq start len)).
Proof.
  intros Hbody. induction len as [|len IH]; intros start val_loss s; [done|].
  cbn [seq for_each]. apply wp_bind. eapply wp_mono; [|apply Hbody].
  intros xs [e|[vl s']] Hxs; [done|].
  eapply wp_mono; [|apply IH]. intros ys r Hys x Hx.
  cbn [flat_map]. by rewrite (Hxs _ eq_refl), (Hys _ Hx).
Qed.

Lemma train_returning {X} (obs : event -> list X) (expect : nat -> list X)
    (model : model_obj) (epochs : Z) (train_dataloader : loader_obj)
    (val_dataloader : option loader_obj) (criterion : criterion_obj)
    (optimizer : optimizer_obj) (scheduler : option scheduler_obj)
    (writer : option writer_obj) (sampler : option sampler_obj) (local_rank : Z)
    (s : pystate) :
  obs SetGradEnabled = [] ->
  (forall epoch vl s',
     wp obs (train_epoch model train_dataloader val_dataloader criterion optimizer scheduler
               writer sampler local_rank (is_distributed s) (group_rank s) epoch vl s')
       (fun xs r => forall x, r = inr x -> xs = expect epoch)) ->
  wp obs
    (train model epochs train_dataloader val_dataloader criterion optimizer scheduler writer
       sampler local_rank s)
    (fun xs r => forall x, r = inr x -> xs = flat_map expect (seq 0 (Z.to_nat epochs))).
Proof.
  intros Hgrad Hbody. unfold train, group_rank, is_distributed in *.
  apply wp_bind. cbn [get wp]. cbv beta iota.
  destruct (dist_group s) as [[r w]|]; cbv beta iota.
  all: apply wp_bind; cbn [emit wp]; cbv beta iota; rewrite Hgrad.
  all: apply wp_bind; (eapply wp_mono; [|by apply train_loop_returning]).
  all: intros xs [e|[vl s']] Hxs; [done|]; cbn [ret wp].
  all: intros x _; cbn [app]; rewrite app_nil_r; by eapply Hxs.
Qed.

(** X10. A call of [train] that returns has logged, on the process of
    rank 0, for each epoch in turn [Loss/train], then [Loss/validation]
    if there is a validation loader, then [Misc/learning_rate], each
    tagged with the index of the epoch; on any other process it has
    logged nothing. *)
Theorem train_logs_every_epoch
    (model : model_obj) (epochs : Z) (train_dataloader : loader_obj)
    (val_dataloader : option loader_obj) (criterion : criterion_obj)
    (optimizer : optimizer_obj) (scheduler : option scheduler_obj)
    (writer : option writer_obj) (sampler : option sampler_obj) (local_rank : Z)
    (s : pystate) (o : nat -> Q -> Q) (n : nat) :
  let r := run o n (train model epochs train_dataloader val_dataloader criterion optimizer
                      scheduler writer sampler local_rank s) in
  forall x, result r = inr x ->
  observed log_of (trace r)
  = if (group_rank s =? 0)%Z
    then flat_map (epoch_log val_dataloader) (seq 0 (Z.to_nat epochs))
    else [].
Proof.
  intros r.
  assert (Hwp : wp log_of
            (train model epochs train_dataloader val_dataloader criterion optimizer scheduler
               writer sampler local_rank s)
            (fun xs r => forall x, r = inr x ->
               xs = flat_map (fun e => if (group_rank s =? 0)%Z
                                       then epoch_log val_dataloader e else [])
                      (seq 0 (Z.to_nat epochs)))).
  { apply train_returning; [done|]. intros epoch vl s'. unfold epoch_log.
    repeat wp_step; done. }
  apply (wp_run _ _ _ o n) in Hwp. fold r in Hwp. intros x Hx. rewrite (Hwp x Hx).
  destruct (group_rank s =? 0)%Z; [done|].
  clear. induction (seq 0 (Z.to_nat epochs)) as [|e l IH]; [done|exact IH].
Qed.

(** X11. Validation is the coordinator's alone: on a process whose rank
    is not 0 no run of [train] ever enters [validate_one_epoch], even
    with a validation loader; on the process of rank 0 a call with a
    validation loader that returns has entered it once per epoch. *)
Theorem train_validates_on_rank_0_only
    (model : model_obj) (epochs : Z) (train_dataloader : loader_obj)
    (val_dataloader : option loader_obj) (criterion : criterion_obj)
    (optimizer : optimizer_obj) (scheduler : option scheduler_obj)
    (writer : option writer_obj) (sampler : option sampler_obj) (local_rank : Z)
    (s : pystate) (o : nat -> Q -> Q) (n : nat) :
  let r := run o n (train model epochs train_dataloader val_dataloader criterion optimizer
                      scheduler writer sampler local_rank s) in
  (group_rank s <> 0%Z -> observed enter_of (trace r) = []) /\
  (group_rank s = 0%Z -> val_dataloader <> None -> forall x, result r = inr x ->
   observed enter_of (trace r) = repeat "validate_one_epoch" (Z.to_nat epochs)).
Proof.
  intros r. split.
  - intros Hrank.
    assert (Hwp : wp enter_of
              (train model epochs train_dataloader val_dataloader criterion optimizer
                 scheduler writer sampler local_rank s) (fun xs _ => xs = [])).
    { unfold train, group_rank in *.
      apply wp_bind. cbn [get wp]. cbv beta iota.
      destruct (dist_group s) as [[rk w]|]; [|done]. cbv beta iota.
      apply wp_bind; cbn [emit wp]; cbv beta iota.
      apply wp_bind. eapply wp_mono; [|apply wp_for_each_nothing].
      - by intros xs [e|[l s']] ->.
      - intros epoch vl s'. unfold train_epoch.
        destruct (Z.eqb_spec rk 0) as [?|_]; [done|].
        repeat wp_step; done. }
    exact (wp_run _ _ _ o n Hwp).
  - intros Hrank Hval.
    assert (Hwp : wp enter_of
              (train model epochs train_dataloader val_dataloader criterion optimizer
                 scheduler writer sampler local_rank s)
              (fun xs r => forall x, r = inr x ->
                 xs = flat_map (fun _ => ["validate_one_epoch"]) (seq 0 (Z.to_nat epochs)))).
    { apply train_returning; [done|]. intros epoch vl s'. rewrite Hrank.
      destruct val_dataloader as [vd|]; [|done].
      repeat wp_step; done. }
    apply (wp_run _ _ _ o n) in Hwp. fold r in Hwp. intros x Hx. rewrite (Hwp x Hx).
    clear. generalize 0%nat. induction (Z.to_nat epochs) as [|k IH]; intros start; [done|].
    cbn [seq flat_map repeat app]. by rewrite IH.
Qed.

(** X12. Under distribution a call of [train] that returns has told the
    sampler the index of every epoch, in order, each before the training
    pass of that epoch; without distribution the sampler is never
    touched, in any run. *)
Theorem train_sets_sampler_epoch
    (model : model_obj) (epochs : Z) (train_dataloader : loader_obj)
    (val_dataloader : option loader_obj) (criterion : criterion_obj)
    (optimizer : optimizer_obj) (scheduler : option scheduler_obj)
    (writer : option writer_obj) (sampler : option sampler_obj) (local_rank : Z)
    (s : pystate) (o : nat -> Q -> Q) (n : nat) :
  let r := run o n (train model epochs train_dataloader val_dataloader criterion optimizer
                      scheduler writer sampler local_rank s) in
  (is_distributed s = true -> forall x, result r = inr x ->
   observed set_epoch_of (trace r) = seq 0 (Z.to_nat epochs)) /\
  (is_distributed s = false -> observed set_epoch_of (trace r) = []).
Proof.
  intros r. split.
  - intros Hdist.
    assert (Hwp : wp set_epoch_of
              (train model epochs train_dataloader val_dataloader criterion optimizer
                 scheduler writer sampler local_rank s)
              (fun xs r => forall x, r = inr x ->
                 xs = flat_map (fun e => [e]) (seq 0 (Z.to_nat epochs)))).
    { apply train_returning; [done|]. intros epoch vl s'. rewrite Hdist.
      repeat wp_step; done. }
    apply (wp_run _ _ _ o n) in Hwp. fold r in Hwp. intros x Hx. rewrite (Hwp x Hx).
    clear. induction (seq 0 (Z.to_nat epochs)) as [|e l IH]; [done|]. cbn. by rewrite IH.
  - intros Hdist.
    assert (Hwp : wp set_epoch_of
              (train model epochs train_dataloader val_dataloader criterion optimizer
                 scheduler writer sampler local_rank s) (fun xs _ => xs = [])).
    { unfold train, is_distributed in *.
      apply wp_bind. cbn [get wp]. cbv beta iota.
      destruct (dist_group s) as [[rk w]|]; [done|]. cbv beta iota.
      apply wp_bind; cbn [emit wp]; cbv beta iota.
      apply wp_bind. eapply wp_mono; [|apply wp_for_each_nothing].
      - by intros xs [e|[l s']] ->.
      - intros epoch vl s'. repeat wp_step; done. }
    exact (wp_run _ _ _ o n Hwp).
Qed.

End MoreTrain.

(** ** Collective calls of a process *)

Section Collectives.

Lemma wpc_mono {A} (p : proc A) (Q Q' : list sync -> exn + A -> Prop) :
  (forall cs r, Q cs r -> Q' cs r) -> wpc p Q -> wpc p Q'.
Proof.
  revert Q Q'. induction p as [a|e|ev k IH|v k IH|k IH]; simpl; intros Q Q' HQ Hp; eauto.
  - intros w. eapply IH; [|apply Hp]. simpl. eauto.
  - eapply IH; [|exact Hp]. simpl. eauto.
Qed.

Lemma wpc_pbind {A B} (p : proc A) (f : A -> proc B) (Q : list sync -> exn + B -> Prop) :
  wpc p (fun cs r =>
           match r with
           | inr a => wpc (f a) (fun ds r' => Q (cs ++ ds) r')
           | inl e => Q cs (inl e)
           end) ->
  wpc (pbind p f) Q.
Proof.
  revert Q. induction p as [a|e|ev k IH|v k IH|k IH]; simpl; intros Q Hp.
  - eapply wpc_mono; [|exact Hp]. done.
  - done.
  - apply IH, Hp.
  - intros w. apply IH. eapply wpc_mono; [|apply Hp].
    intros cs [e|a]; simpl; [done|]. apply wpc_mono. done.
  - apply IH. eapply wpc_mono; [|apply Hp].
    intros cs [e|a]; simpl; [done|]. apply wpc_mono. done.
Qed.

Lemma wpc_bind {A B} (p : prog A) (f : A -> prog B) s
    (Q : list sync -> exn + (B * pystate) -> Prop) :
  wpc (p s) (fun cs r =>
               match r with
               | inr (a, s') => wpc (f a s') (fun ds r' => Q (cs ++ ds) r')
               | inl e => Q cs (inl e)
               end) ->
  wpc (bind p f s) Q.
Proof.
  intros Hp. unfold bind. apply wpc_pbind. eapply wpc_mono; [|exact Hp].
  intros cs [e|[a s']]; done.
Qed.

Lemma wpc_emits {A} (tr : list event) (p : proc A) (Q : list sync -> exn + A -> Prop) :
  wpc p Q -> wpc (emits tr p) Q.
Proof. induction tr as [|ev tr IH]; simpl; eauto. Qed.

(** What [wpc] promises holds of every run. *)
Lemma wpc_run {A} (p : proc A) (Q : list sync -> exn + A -> Prop) o n :
  wpc p Q -> Q (syncs o n p) (result (run o n p)).
Proof.
  revert Q n. induction p as [a|e|ev k IH|v k IH|k IH]; simpl; intros Q n Hp.
  - done.
  - done.
  - apply IH, Hp.
  - apply (IH _ (fun cs r => Q (Reduce :: cs) r)), Hp.
  - apply (IH (fun cs r => Q (Wait :: cs) r)), Hp.
Qed.

(** Some run there is. *)
Lemma wpc_inhabited {A} (p : proc A) (Q : list sync -> exn + A -> Prop) :
  wpc p Q -> exists cs r, Q cs r.
Proof.
  intros Hp. exists (syncs (fun _ v => v) 0 p), (result (run (fun _ v => v) 0 p)).
  by apply wpc_run.
Qed.

(** From a process to where it stands at its next collective call. *)
Lemma wpc_ended {A} (p : proc A) (Q : list sync -> exn + A -> Prop) (r : exn + A) :
  next_collective p = Ended r -> wpc p Q -> Q [] r.
Proof.
  induction p as [a|e|ev k IH|v k IH|k IH]; simpl; intros Hnext Hp; try done.
  - by injection Hnext as <-.
  - by injection Hnext as <-.
  - eauto.
Qed.

Lemma wpc_reducing {A} (p : proc A) (Q : list sync -> exn + A -> Prop) v k :
  next_collective p = Reducing v k -> wpc p Q ->
  forall w, wpc (k w) (fun cs r => Q (Reduce :: cs) r).
Proof.
  induction p as [a|e|ev k' IH|v' k' IH|k' IH]; simpl; intros Hnext Hp; try done.
  - eauto.
  - injection Hnext as <- <-. done.
Qed.

Lemma wpc_waiting {A} (p : proc A) (Q : list sync -> exn + A -> Prop) k :
  next_collective p = Waiting k -> wpc p Q -> wpc k (fun cs r => Q (Wait :: cs) r).
Proof.
  induction p as [a|e|ev k' IH|v' k' IH|k' IH]; simpl; intros Hnext Hp; try done.
  - eauto.
  - injection Hnext as <-. done.
Qed.

End Collectives.

Section PassCollectives.
Context `{Framework}.

(** The collective calls of the two passes: a training pass makes one
    reduction under distribution, after its last step; a validation pass
    makes none. *)
Lemma wpc_train_one_epoch (model : model_obj) (bs : list batch)
    (criterion : criterion_obj) (optimizer : optimizer_obj) (local_rank : Z)
    (distributed : bool) (s : pystate) (Q : list sync -> exn + (Q * pystate) -> Prop) :
  match bs with
  | [] => Q [] (inl (UnboundLocalError "step"))
  | _ => forall q,
      Q (if distributed then [Reduce] else [])
        (inr (q, set_heap (epoch_heap model criterion optimizer (heap s) bs) s))
  end ->
  wpc (train_one_epoch model bs criterion optimizer local_rank distributed s) Q.
Proof.
  intros HQ. destruct bs as [|b bs]; [exact HQ|].
  rewrite train_one_epoch_nonempty. apply wpc_emits.
  destruct distributed; simpl; eauto.
Qed.

Lemma wpc_validate_one_epoch (model : model_obj) (bs : list batch)
    (criterion : criterion_obj) (local_rank : Z) (s : pystate)
    (Q : list sync -> exn + (Q * pystate) -> Prop) :
  match bs with
  | [] => Q [] (inl (UnboundLocalError "step"))
  | _ => forall q, Q [] (inr (q, s))
  end ->
  wpc (validate_one_epoch model bs criterion local_rank s) Q.
Proof.
  intros HQ. rewrite validate_one_epoch_eq. destruct bs as [|b bs]; simpl; eauto.
Qed.

End PassCollectives.

Ltac wpc_step :=
  lazymatch goal with
  | |- wpc (bind _ _ _) _ => apply wpc_bind
  | |- wpc (Ret _) _ => cbn [wpc]
  | |- wpc (Raise _) _ => cbn [wpc]
  | |- wpc (Emit _ _) _ => cbn [wpc]
  | |- wpc (AllReduce _ _) _ => cbn [wpc]; intro
  | |- wpc (Barrier _) _ => cbn [wpc]
  | |- wpc (train_one_epoch _ _ _ _ _ _ _) _ => apply wpc_train_one_epoch
  | |- wpc (validate_one_epoch _ _ _ _ _) _ => apply wpc_validate_one_epoch
  | |- wpc (for_each _ _ _ _) _ => fail
  | |- wpc (train _ _ _ _ _ _ _ _ _ _ _) _ => fail
  | |- wpc (match ?x with _ => _ end) _ => split_scrutinee x
  | |- wpc ((match ?x with _ => _ end) _) _ => split_scrutinee x
  | |- wpc ?p _ => let h := prog_head p in unfold h
  | |- match ?x with _ => _ end => split_scrutinee x
  | |- forall _, _ => intro
  end; cbv beta iota zeta.

Section TrainCollectives.
Context `{Framework}.

(** A turn of the epoch loop returns exactly when the epoch has what it
    needs, after the reduction and the barrier of the epoch under
    distribution; a turn that fails has made at most the reduction. *)
Lemma train_epoch_syncs (model : model_obj) (train_dataloader : loader_obj)
    (val_dataloader : option loader_obj) (criterion : criterion_obj)
    (optimizer : optimizer_obj) (scheduler : option scheduler_obj)
    (writer : option writer_obj) (sampler : option sampler_obj) (local_rank : Z)
    (distributed : bool) (rank : Z) (epoch : nat) (val_loss : option Q) (s : pystate) :
  wpc
    (train_epoch model train_dataloader val_dataloader criterion optimizer scheduler writer
       sampler local_rank distributed rank epoch val_loss s)
    (fun cs r =>
       match r with
       | inl _ =>
           (cs = [] \/ distributed = true /\ cs = [Reduce]) /\
           ~ epoch_ready model train_dataloader val_dataloader writer sampler distributed rank
               epoch
       | inr _ =>
           cs = epoch_syncs distributed /\
           epoch_ready model train_dataloader val_dataloader writer sampler distributed rank
             epoch
       end).
Proof.
  unfold epoch_ready, wrapped_as, epoch_checkpoint, epoch_syncs.
  repeat wpc_step.
  all: cbn [app].
  all: (split; [ first [ reflexivity | by left | by right ] | ]).
  all: try (intros (Hs & Hb & Hr); exfalso; try done; try (by apply Hs); try use_rank;
            try done; try (by eapply Hv)).
  all: try (split; [done|]; split; [done|]; intros Hr; try lia).
  all: (split; [intros vd Hvd; try done; injection Hvd as <-; congruence | done]).
Qed.

(** The epochs [start .. start + len - 1] in turn. *)
Lemma train_loop_syncs (model : model_obj) (train_dataloader : loader_obj)
    (val_dataloader : option loader_obj) (criterion : criterion_obj)
    (optimizer : optimizer_obj) (scheduler : option scheduler_obj)
    (writer : option writer_obj) (sampler : option sampler_obj) (local_rank : Z)
    (distributed : bool) (rank : Z) (len : nat) :
  forall (start : nat) (val_loss : option Q) (s : pystate),
  wpc
    (for_each (seq start len)
       (train_epoch model train_dataloader val_dataloader criterion optimizer scheduler writer
          sampler local_rank distributed rank) val_loss s)
    (fun cs r =>
       match r with
       | inl _ =>
           exists k, (k < len)%nat /\
             (cs = epochs_syncs distributed k \/
              distributed = true /\ cs = epochs_syncs distributed k ++ [Reduce]) /\
             (forall e, (start <= e < start + k)%nat ->
                epoch_ready model train_dataloader val_dataloader writer sampler distributed
                  rank e) /\
             ~ epoch_ready model train_dataloader val_dataloader writer sampler distributed
                 rank (start + k)
       | inr _ =>
           cs = epochs_syncs distributed len /\
           forall e, (start <= e < start + len)%nat ->
             epoch_ready model train_dataloader val_dataloader writer sampler distributed
               rank e
       end).
Proof.
  induction len as [|len IH]; intros start val_loss s.
  - simpl. split; [done|]. intros e He. lia.
  - cbn [seq for_each]. apply wpc_bind.
    eapply wpc_mono; [|apply train_epoch_syncs].
    intros cs [e|[vl s']] [Hcs Hready].
    + exists 0%nat. split; [lia|]. split; [|split].
      * destruct Hcs as [->| [-> ->]]; [by left | by right].
      * intros e' He'. lia.
      * by rewrite Nat.add_0_r.
    + eapply wpc_mono; [|apply IH]. subst cs.
      intros ds [e|x].
      * intros (k & Hk & Hds & Hbefore & Hfail). exists (S k). split; [lia|].
        split; [|split].
        -- unfold epochs_syncs in *. cbn [repeat concat].
           destruct Hds as [->| [-> ->]]; [by left | right]. by rewrite app_assoc.
        -- intros e' He'. destruct (decide (e' = start)) as [->|Hne]; [done|].
           apply Hbefore. lia.
        -- by replace (start + S k)%nat with (S start + k)%nat by lia.
      * intros [-> Hall]. split; [done|].
        intros e' He'. destruct (decide (e' = start)) as [->|Hne]; [done|].
        apply Hall. lia.
Qed.

(** [train] as a whole: it returns exactly when every epoch has what it
    needs, after the collective calls of all its epochs; when it fails,
    it does so in the first epoch that lacks something, after the calls
    of the epochs before and at most one reduction more. *)
Lemma train_syncs (model : model_obj) (epochs : Z) (train_dataloader : loader_obj)
    (val_dataloader : option loader_obj) (criterion : criterion_obj)
    (optimizer : optimizer_obj) (scheduler : option scheduler_obj)
    (writer : option writer_obj) (sampler : option sampler_obj) (local_rank : Z)
    (s : pystate) :
  let ready :=
    epoch_ready model train_dataloader val_dataloader writer sampler (is_distributed s)
      (group_rank s) in
  wpc
    (train model epochs train_dataloader val_dataloader criterion optimizer scheduler writer
       sampler local_rank s)
    (fun cs r =>
       match r with
       | inl _ =>
           exists k, (k < Z.to_nat epochs)%nat /\
             (cs = epochs_syncs (is_distributed s) k \/
              is_distributed s = true /\ cs = epochs_syncs (is_distributed s) k ++ [Reduce]) /\
             (forall e, (e < k)%nat -> ready e) /\ ~ ready k
       | inr _ =>
           cs = epochs_syncs (is_distributed s) (Z.to_nat epochs) /\
           forall e, (e < Z.to_nat epochs)%nat -> ready e
       end).
Proof.
  intros ready. unfold ready, train, group_rank, is_distributed.
  apply wpc_bind. cbn [get wpc]. cbv beta iota.
  assert (Hloop := fun d r => train_loop_syncs model train_dataloader val_dataloader criterion
                     optimizer scheduler writer sampler local_rank d r (Z.to_nat epochs) 0%nat
                     None s).
  destruct (dist_group s) as [[r w]|]; cbv beta iota.
  all: apply wpc_bind; cbn [emit wpc app]; cbv beta iota.
  all: apply wpc_bind; (eapply wpc_mono; [|apply Hloop]).
  all: intros cs [e|[vl s']]; cbn [ret wpc app]; rewrite ?app_nil_r.
  all: try (intros (k & Hk & Hcs & Hbefore & Hfail); exists k;
            split; [done|]; split; [done|]; split; [|done];
            intros e' He'; apply Hbefore; lia).
  all: intros [-> Hall]; split; [done|]; intros e' He'; apply Hall; lia.
Qed.

End TrainCollectives.

(** ** Groups in lockstep *)

Section Lockstep.
Context {A : Type}.
Implicit Types (p : proc A) (ps : list (proc A)) (P : exn + A -> Prop).





End Lockstep.

Section Stuck.
Context {A : Type}.
Implicit Types (p : proc A) (ps : list (proc A)).

Lemma lookup_map {X Y} (f : X -> Y) (l : list X) (i : nat) (x : X) :
  l !! i = Some x -> map f l !! i = Some (f x).
Proof.
  revert i. induction l as [|y l IH]; intros [|i] Hi; try done.
  - by injection Hi as ->.
  - by apply IH.
Qed.

Lemma mapM_lookup {X Y} (f : X -> option Y) (l : list X) (k : list Y) (i : nat) (x : X) :
  mapM f l = Some k -> l !! i = Some x -> exists y, k !! i = Some y /\ f x = Some y.
Proof. intros Hk%mapM_Some Hi. by eapply Forall2_lookup_l in Hk. Qed.

(** A group in which one process makes fewer collective calls than
    another never completes: some of its processes wait for ever. *)
Lemma run_group_hangs (fuel : nat) :
  forall (n : nat) ps (i0 i1 : nat) p0 p1,
  ps !! i0 = Some p0 -> ps !! i1 = Some p1 ->
  wpc p0 (fun cs _ => (length cs < n)%nat) ->
  wpc p1 (fun cs _ => length cs = n) ->
  (n < fuel)%nat ->
  run_group fuel ps = Hang.
Proof.
  induction fuel as [|fuel IH]; intros n ps i0 i1 p0 p1 Hi0 Hi1 Hp0 Hp1 Hfuel; [lia|].
  cbn [run_group].
  pose proof (lookup_map next_collective _ _ _ Hi0) as Hs0.
  pose proof (lookup_map next_collective _ _ _ Hi1) as Hs1.
  destruct (mapM ended (map next_collective ps)) as [rs|] eqn:Hended.
  { destruct (mapM_lookup _ _ _ _ _ Hended Hs0) as (r0 & _ & Hr0).
    destruct (mapM_lookup _ _ _ _ _ Hended Hs1) as (r1 & _ & Hr1).
    destruct (next_collective p0) eqn:Hn0; [|done..]. injection Hr0 as ->.
    destruct (next_collective p1) eqn:Hn1; [|done..]. injection Hr1 as ->.
    pose proof (wpc_ended _ _ _ Hn0 Hp0) as Hlt.
    pose proof (wpc_ended _ _ _ Hn1 Hp1) as Heq.
    cbn [length] in *. lia. }
  destruct (mapM reducing (map next_collective ps)) as [vks|] eqn:Hred.
  { destruct (mapM_lookup _ _ _ _ _ Hred Hs0) as ([v0 k0] & Hv0 & Hr0).
    destruct (mapM_lookup _ _ _ _ _ Hred Hs1) as ([v1 k1] & Hv1 & Hr1).
    destruct (next_collective p0) eqn:Hn0; try done. injection Hr0 as -> ->.
    destruct (next_collective p1) eqn:Hn1; try done. injection Hr1 as -> ->.
    set (avg := Qmean (map fst vks)).
    pose proof (wpc_reducing _ _ _ _ Hn0 Hp0 avg) as Hk0.
    pose proof (wpc_reducing _ _ _ _ Hn1 Hp1 avg) as Hk1.
    destruct (wpc_inhabited _ _ Hk1) as (cs & _ & Hcs). cbn [length] in Hcs.
    apply (IH (length cs) _ i0 i1 (k0 avg) (k1 avg)).
    - exact (lookup_map (fun vk => snd vk avg) _ _ _ Hv0).
    - exact (lookup_map (fun vk => snd vk avg) _ _ _ Hv1).
    - eapply wpc_mono; [|exact Hk0]. cbn. intros; lia.
    - eapply wpc_mono; [|exact Hk1]. cbn. intros; lia.
    - lia. }
  destruct (mapM waiting (map next_collective ps)) as [ks|] eqn:Hwait; [|done].
  destruct (mapM_lookup _ _ _ _ _ Hwait Hs0) as (k0 & Hv0 & Hr0).
  destruct (mapM_lookup _ _ _ _ _ Hwait Hs1) as (k1 & Hv1 & Hr1).
  destruct (next_collective p0) eqn:Hn0; try done. injection Hr0 as ->.
  destruct (next_collective p1) eqn:Hn1; try done. injection Hr1 as ->.
  pose proof (wpc_waiting _ _ _ Hn0 Hp0) as Hk0.
  pose proof (wpc_waiting _ _ _ Hn1 Hp1) as Hk1.
  destruct (wpc_inhabited _ _ Hk1) as (cs & _ & Hcs). cbn [length] in Hcs.
  apply (IH (length cs) _ i0 i1 k0 k1); try done.
  - eapply wpc_mono; [|exact Hk0]. cbn. intros; lia.
  - eapply wpc_mono; [|exact Hk1]. cbn. intros; lia.
  - lia.
Qed.

End Stuck.

(** ** The collective calls of [train] *)

Section GroupTraining.
Context `{Framework}.

Lemma epochs_syncs_alone (k : nat) : epochs_syncs false k = [].
Proof. unfold epochs_syncs. induction k as [|k IH]; [done | exact IH]. Qed.

Lemma epochs_syncs_length (k : nat) : length (epochs_syncs true k) = (2 * k)%nat.
Proof.
  unfold epochs_syncs. induction k as [|k IH]; [done|].
  cbn [repeat concat]. rewrite length_app, IH. cbn. lia.
Qed.


(** X14. The collective calls of [train] do not depend on the rank:
    without a process group there is none; in a group a call that
    returns has made, for every epoch, one averaging reduction followed
    by one barrier, and a call that raises has made those of the epochs
    before the one that failed and at most the reduction of that one. *)
Theorem train_collective_calls
    (model : model_obj) (epochs : Z) (train_dataloader : loader_obj)
    (val_dataloader : option loader_obj) (criterion : criterion_obj)
    (optimizer : optimizer_obj) (scheduler : option scheduler_obj)
    (writer : option writer_obj) (sampler : option sampler_obj) (local_rank : Z)
    (s : pystate) (o : nat -> Q -> Q) (n : nat) :
  let call := train model epochs train_dataloader val_dataloader criterion optimizer
                scheduler writer sampler local_rank s in
  (is_distributed s = false -> syncs o n call = []) /\
  (is_distributed s = true ->
   (forall x, result (run o n call) = inr x ->
      syncs o n call = concat (repeat [Reduce; Wait] (Z.to_nat epochs))) /\
   (forall err, result (run o n call) = inl err ->
      exists k, (k < Z.to_nat epochs)%nat /\
        (syncs o n call = concat (repeat [Reduce; Wait] k) \/
         syncs o n call = concat (repeat [Reduce; Wait] k) ++ [Reduce]))).
Proof.
  intros call.
  pose proof (wpc_run _ _ o n
                (train_syncs model epochs train_dataloader val_dataloader criterion optimizer
                   scheduler writer sampler local_rank s)) as Hrun.
  fold call in Hrun. cbv zeta in Hrun. split.
  - intros Hd. rewrite Hd in Hrun.
    destruct (result (run o n call)) as [err|x].
    + destruct Hrun as (k & _ & [-> | [? _]] & _); [apply epochs_syncs_alone | done].
    + destruct Hrun as [-> _]. apply epochs_syncs_alone.
  - intros Hd. rewrite Hd in Hrun.
    destruct (result (run o n call)) as [err|x]; split; try done.
    + intros err' _. destruct Hrun as (k & Hk & Hcs & _). exists k. split; [done|].
      destruct Hcs as [->| [_ ->]]; [by left | by right].
    + intros x' _. by destruct Hrun as [-> _].
Qed.


(** X16. A group in which one process has, in every epoch, what it needs
    and another lacks something in some epoch never completes: the
    process that lacks something raises, and the others wait for it for
    ever at a reduction or at a barrier. *)
Theorem train_group_hangs (epochs : Z) (ts : list trainer) (fuel : nat)
    (t0 t1 : trainer) (k : nat) :
  t0 ∈ ts -> t1 ∈ ts ->
  is_distributed (t_state t0) = true -> is_distributed (t_state t1) = true ->
  (k < Z.to_nat epochs)%nat -> ~ trainer_ready t0 k ->
  (forall e, (e < Z.to_nat epochs)%nat -> trainer_ready t1 e) ->
  (2 * Z.to_nat epochs < fuel)%nat ->
  run_group fuel (map (trainer_call epochs) ts) = Hang.
Proof.
  intros [i0 Hi0]%list_elem_of_lookup [i1 Hi1]%list_elem_of_lookup Hd0 Hd1 Hk Hfail Hready
    Hfuel.
  apply (run_group_hangs fuel (2 * Z.to_nat epochs) _ i0 i1
           (trainer_call epochs t0) (trainer_call epochs t1)).
  - by apply lookup_map.
  - by apply lookup_map.
  - eapply wpc_mono; [|apply train_syncs]. cbv zeta.
    intros cs [err|x].
    + intros (j & Hj & Hcs & _). rewrite Hd0 in Hcs.
      destruct Hcs as [->| [_ ->]]; rewrite ?length_app, epochs_syncs_length; cbn; lia.
    + intros [_ Hall]. destruct Hfail. by apply Hall.
  - eapply wpc_mono; [|apply train_syncs]. cbv zeta.
    intros cs [err|x].
    + intros (j & Hj & _ & _ & Hno). destruct Hno. by apply Hready.
    + intros [-> _]. rewrite Hd1. apply epochs_syncs_length.
  - done.
Qed.

End GroupTraining.

(** ** What training leaves behind *)

Section TrainState.
Context `{Framework}.

Lemma train_epoch_state (model : model_obj) (train_dataloader : loader_obj)
    (val_dataloader : option loader_obj) (criterion : criterion_obj)
    (optimizer : optimizer_obj) (scheduler : option scheduler_obj)
    (writer : option writer_obj) (sampler : option sampler_obj) (local_rank : Z)
    (distributed : bool) (rank : Z) (epoch : nat) (val_loss : option Q) (s : pystate) :
  wpc
    (train_epoch model train_dataloader val_dataloader criterion optimizer scheduler writer
       sampler local_rank distributed rank epoch val_loss s)
    (fun _ r => forall vl s', r = inr (vl, s') ->
       s' = epoch_state model train_dataloader criterion optimizer writer rank epoch s).
Proof.
  unfold epoch_state, epoch_checkpoint.
  repeat wpc_step.
  all: try done.
  all: match goal with Hr : inr _ = inr _ |- _ => injection Hr as <- <- end.
  all: reflexivity.
Qed.

Lemma train_loop_state (model : model_obj) (train_dataloader : loader_obj)
    (val_dataloader : option loader_obj) (criterion : criterion_obj)
    (optimizer : optimizer_obj) (scheduler : option scheduler_obj)
    (writer : option writer_obj) (sampler : option sampler_obj) (local_rank : Z)
    (distributed : bool) (rank : Z) (s0 : pystate) (len : nat) :
  forall (start : nat) (val_loss : option Q),
  wpc
    (for_each (seq start len)
       (train_epoch model train_dataloader val_dataloader criterion optimizer scheduler writer
          sampler local_rank distributed rank) val_loss
       (state_after model train_dataloader criterion optimizer writer rank start s0))
    (fun _ r => forall vl s', r = inr (vl, s') ->
       s' = state_after model train_dataloader criterion optimizer writer rank (start + len) s0).
Proof.
  induction len as [|len IH]; intros start val_loss.
  - simpl. intros vl s' [= _ <-]. by rewrite Nat.add_0_r.
  - cbn [seq for_each]. apply wpc_bind.
    eapply wpc_mono; [|apply train_epoch_state].
    intros _ [e|[vl s1]] Hs1; [done|].
    rewrite (Hs1 _ _ eq_refl).
    change (epoch_state model train_dataloader criterion optimizer writer rank start
              (state_after model train_dataloader criterion optimizer writer rank start s0))
      with (state_after model train_dataloader criterion optimizer writer rank (S start) s0).
    eapply wpc_mono; [|apply IH]. cbv beta.
    intros _ r Hr vl' s' Hx. rewrite (Hr _ _ Hx). f_equal. lia.
Qed.

Lemma train_state (model : model_obj) (epochs : Z) (train_dataloader : loader_obj)
    (val_dataloader : option loader_obj) (criterion : criterion_obj)
    (optimizer : optimizer_obj) (scheduler : option scheduler_obj)
    (writer : option writer_obj) (sampler : option sampler_obj) (local_rank : Z)
    (s : pystate) :
  wpc
    (train model epochs train_dataloader val_dataloader criterion optimizer scheduler writer
       sampler local_rank s)
    (fun _ r => forall x s', r = inr (x, s') ->
       s' = state_after model train_dataloader criterion optimizer writer (group_rank s)
              (Z.to_nat epochs) s).
Proof.
  unfold train, group_rank.
  apply wpc_bind. cbn [get wpc]. cbv beta iota.
  assert (Hloop := fun d r => train_loop_state model train_dataloader val_dataloader criterion
                     optimizer scheduler writer sampler local_rank d r s (Z.to_nat epochs)
                     0%nat None).
  destruct (dist_group s) as [[r w]|]; cbv beta iota.
  all: apply wpc_bind; cbn [emit wpc app]; cbv beta iota.
  all: apply wpc_bind; (eapply wpc_mono; [|apply Hloop]).
  all: intros _ [e|[vl s1]] Hs1; cbn [ret wpc]; [done|].
  all: intros x s' [= _ <-]; by apply (Hs1 vl).
Qed.

(** The state after [k] epochs, field by field. *)
Lemma state_after_heap (model : model_obj) (train_dataloader : loader_obj)
    (criterion : criterion_obj) (optimizer : optimizer_obj) (writer : option writer_obj)
    (rank : Z) (k : nat) (s : pystate) :
  heap (state_after model train_dataloader criterion optimizer writer rank k s)
  = heap_after model train_dataloader criterion optimizer k (heap s).
Proof.
  induction k as [|k IH]; [done|]. cbn [state_after heap_after]. rewrite <- IH.
  unfold epoch_state. destruct (rank =? 0)%Z; [|done].
  by destruct (epoch_checkpoint writer k).
Qed.

Lemma state_after_group (model : model_obj) (train_dataloader : loader_obj)
    (criterion : criterion_obj) (optimizer : optimizer_obj) (writer : option writer_obj)
    (rank : Z) (k : nat) (s : pystate) :
  dist_group (state_after model train_dataloader criterion optimizer writer rank k s)
  = dist_group s.
Proof.
  induction k as [|k IH]; [done|]. cbn [state_after]. rewrite <- IH.
  unfold epoch_state. destruct (rank =? 0)%Z; [|done].
  by destruct (epoch_checkpoint writer k).
Qed.

Lemma state_after_files_elsewhere (model : model_obj) (train_dataloader : loader_obj)
    (criterion : criterion_obj) (optimizer : optimizer_obj) (writer : option writer_obj)
    (rank : Z) (k : nat) (s : pystate) :
  rank <> 0%Z ->
  files (state_after model train_dataloader criterion optimizer writer rank k s) = files s.
Proof.
  intros Hrank. induction k as [|k IH]; [done|]. cbn [state_after]. rewrite <- IH.
  unfold epoch_state. by destruct (Z.eqb_spec rank 0).
Qed.

Lemma state_after_files (model : model_obj) (train_dataloader : loader_obj)
    (criterion : criterion_obj) (optimizer : optimizer_obj) (w : writer_obj)
    (outer inner : string) (k : nat) (s : pystate) :
  rsplit_last "/" (writer_log_dir w) = Some (outer, inner) ->
  let s' := state_after model train_dataloader criterion optimizer (Some w) 0 k s in
  (forall e, (e < k)%nat ->
     files s' !! checkpoint_path outer inner e
     = Some (snapshot (module_of model)
               (heap_after model train_dataloader criterion optimizer (S e) (heap s)))) /\
  (forall p, (forall e, (e < k)%nat -> p <> checkpoint_path outer inner e) ->
     files s' !! p = files s !! p).
Proof.
  intros Hsplit. induction k as [|k [IHin IHout]]; cbv zeta.
  - split; [intros e He; lia | done].
  - cbn [state_after]. unfold epoch_state, epoch_checkpoint.
    rewrite Hsplit. cbn [Z.eqb files]. rewrite state_after_heap. split.
    + intros e He. destruct (decide (e = k)) as [->|Hne].
      * by rewrite lookup_insert_eq.
      * rewrite lookup_insert_ne; [apply IHin; lia|].
        intros Heq%checkpoint_path_inj. done.
    + intros p Hp. rewrite lookup_insert_ne.
      * apply IHout. intros e He. apply Hp. lia.
      * intros Heq. by apply (Hp k); [lia|].
Qed.

End TrainState.

Section Contents.
Context `{Framework}.

(** X17. When a call of [train] returns, the parameters have gone
    through the training passes of all the epochs, in order, and the
    process group is as before. On a process whose rank is not 0 the
    files are as before. On the process of rank 0, for a writer whose
    log directory is [outer/inner], the checkpoint of every epoch is
    still on disk and holds the encoder and the head as they were at the
    end of the training pass of that epoch, not as they are at the end:
    no later epoch overwrites it; and no other file has changed. *)
Theorem train_leaves_one_checkpoint_per_epoch
    (model : model_obj) (epochs : Z) (train_dataloader : loader_obj)
    (val_dataloader : option loader_obj) (criterion : criterion_obj)
    (optimizer : optimizer_obj) (scheduler : option scheduler_obj)
    (writer : option writer_obj) (sampler : option sampler_obj) (local_rank : Z)
    (s : pystate) (o : nat -> Q -> Q) (n : nat) (x : unit) (s' : pystate) :
  result (run o n (train model epochs train_dataloader val_dataloader criterion optimizer
                     scheduler writer sampler local_rank s)) = inr (x, s') ->
  let params := fun k => heap_after model train_dataloader criterion optimizer k (heap s) in
  heap s' = params (Z.to_nat epochs) /\
  dist_group s' = dist_group s /\
  (group_rank s <> 0%Z -> files s' = files s) /\
  (group_rank s = 0%Z ->
   forall (w : writer_obj) (outer inner : string),
   writer = Some w -> writer_log_dir w = outer +:+ "/" +:+ inner ->
   has_char "/" inner = false ->
   (forall e, (e < Z.to_nat epochs)%nat ->
      files s' !! checkpoint_path outer inner e
      = Some (snapshot (module_of model) (params (S e)))) /\
   (forall p, (forall e, (e < Z.to_nat epochs)%nat -> p <> checkpoint_path outer inner e) ->
      files s' !! p = files s !! p)).
Proof.
  intros Hr params.
  pose proof (wpc_run _ _ o n
                (train_state model epochs train_dataloader val_dataloader criterion optimizer
                   scheduler writer sampler local_rank s) x s' Hr) as ->.
  split; [apply state_after_heap|]. split; [apply state_after_group|]. split.
  - apply state_after_files_elsewhere.
  - intros -> w outer inner -> Hdir Hinner.
    apply state_after_files. rewrite Hdir. by apply rsplit_last_join.
Qed.

End Contents.

(** ** More on the entry point *)

Section MoreMain.
Context `{Framework}.

(** With [args.model] equal to ['original'] the path handed to
    [SimCLR.load] is [None], which [torch.load] refuses. *)
Lemma main_prepare_original (local_rank : Z) (args : Namespace) (s : pystate) :
  extra args !! "model" = Some (VStr "original") ->
  wp (only is_training) (main_prepare local_rank args s)
    (fun xs r => xs = [] /\
       exists e, r = inl e /\
         (forall w, world_size args = Some w ->
            ((1 < w)%Z -> dist_group s = None) ->
            is_Some (extra args !! "arch_depth") ->
            is_Some (extra args !! "arch_width") ->
            is_Some (extra args !! "arch_sk") ->
            e = AttributeError "seek")).
Proof.
  intros Hmodel. unfold main_prepare, getattr. cbv zeta. rewrite Hmodel.
  repeat (wp_step; cbn [value_eqb]; rewrite ?String.eqb_refl; cbv iota).
  all: split; [done|]; eexists; split; [done|]; intros w' Hw Hg [? Hd] [? Hwd] [? Hsk];
       try done.
  all: try (injection Hw as <-; apply Z.ltb_lt in Heqb; by specialize (Hg Heqb)).
  all: try (rewrite Hw in *; simplify_eq; apply Z.ltb_lt in Heqb; by specialize (Hg Heqb)).
Qed.

(** [train] performs no event but its own: an observer of other events
    sees nothing of it. *)
Lemma train_epoch_silent {X} (obs : event -> list X) (model : model_obj)
    (train_dataloader : loader_obj)
    (val_dataloader : option loader_obj) (criterion : criterion_obj)
    (optimizer : optimizer_obj) (scheduler : option scheduler_obj)
    (writer : option writer_obj) (sampler : option sampler_obj) (local_rank : Z)
    (distributed : bool) (rank : Z) (epoch : nat) (val_loss : option Q) (s : pystate) :
  (forall ev, train_event ev = true -> obs ev = []) ->
  wp obs
    (train_epoch model train_dataloader val_dataloader criterion optimizer scheduler writer
       sampler local_rank distributed rank epoch val_loss s)
    (fun xs _ => xs = []).
Proof.
  intros Hobs.
  repeat first [ apply wp_train_one_epoch; [by apply Hobs|] | wp_step ].
  all: by rewrite ?Hobs.
Qed.

Lemma train_silent {X} (obs : event -> list X) (model : model_obj) (epochs : Z)
    (train_dataloader : loader_obj)
    (val_dataloader : option loader_obj) (criterion : criterion_obj)
    (optimizer : optimizer_obj) (scheduler : option scheduler_obj)
    (writer : option writer_obj) (sampler : option sampler_obj) (local_rank : Z)
    (s : pystate) :
  (forall ev, train_event ev = true -> obs ev = []) ->
  wp obs
    (train model epochs train_dataloader val_dataloader criterion optimizer scheduler writer
       sampler local_rank s)
    (fun xs _ => xs = []).
Proof.
  intros Hobs. unfold train.
  apply wp_bind. cbn [get wp]. cbv beta iota.
  destruct (dist_group s) as [[r w]|]; cbv beta iota.
  all: apply wp_bind; cbn [emit wp]; cbv beta iota; rewrite (Hobs SetGradEnabled eq_refl).
  all: apply wp_bind; (eapply wp_mono; [|apply wp_for_each_nothing]).
  all: try (intros; by apply train_epoch_silent).
  all: by intros xs [e|[l s']] ->.
Qed.

(** The process group along [main]. *)
Lemma main_prepare_group (local_rank w : Z) (args : Namespace) (s : pystate) :
  dist_group s = None ->
  world_size args = Some w ->
  wp (only is_group) (main_prepare local_rank args s)
    (fun xs _ =>
       xs = if (1 <? w)%Z
            then [InitProcessGroup (node_index args * gpus args + local_rank) w]
            else []).
Proof.
  intros Hnone Hw. unfold main_prepare, setup, init_process_group, get_world_size.
  cbv zeta. rewrite Hw.
  repeat wp_step.
  all: try congruence.
  all: reflexivity.
Qed.

Lemma main_group (local_rank w : Z) (args : Namespace) (s : pystate) :
  dist_group s = None ->
  world_size args = Some w ->
  wp (only is_group) (main local_rank args s)
    (fun xs r =>
       if (1 <? w)%Z then
         match r with
         | inl _ => xs = [InitProcessGroup (node_index args * gpus args + local_rank) w]
         | inr (_, s') =>
             xs = [InitProcessGroup (node_index args * gpus args + local_rank) w;
                   DestroyProcessGroup] /\
             dist_group s' = None
         end
       else xs = []).
Proof.
  intros Hnone Hw. unfold main. apply wp_bind.
  eapply wp_mono; [|by apply main_prepare_group].
  intros xs [e|[l s']] ->; [by destruct (1 <? w)%Z|].
  apply wp_bind. eapply wp_mono; [|by apply train_silent; intros []].
  intros ys [e|[[] s'']] ->; [by destruct (1 <? w)%Z|].
  unfold get_world_size. rewrite Hw.
  repeat wp_step.
  all: by destruct (1 <? w)%Z.
Qed.

(** The directory [main] creates, and the writer it hands to [train]. *)
Lemma main_prepare_directory (local_rank : Z) (args : Namespace) (s : pystate) :
  (node_index args * gpus args + local_rank)%Z = 0%Z ->
  dist_group s = None ->
  wp save_of (main_prepare local_rank args s)
    (fun xs r => xs = [] /\
       forall l s', r = inr (l, s') ->
         group_rank s' = 0%Z /\
         l_writer l
         = Some (SummaryWriter (log_dir args +:+ "/" +:+ strftime (ticks s) "%Y-%m-%d_%H:%M:%S"))).
Proof.
  intros Hrank Hnone. unfold main_prepare, now. cbv zeta. rewrite Hrank.
  repeat wp_step.
  all: split; [done|]; intros l' s'' Hr; try done.
  all: injection Hr as <- <-; unfold group_rank;
       cbn [dist_group ticks tick set_heap set_dist_group l_writer]; try done.
  all: by rewrite Hnone.
Qed.

Lemma main_makedirs (local_rank : Z) (args : Namespace) (s : pystate) :
  (node_index args * gpus args + local_rank)%Z = 0%Z ->
  wp makedirs_of (main local_rank args s)
    (fun xs r =>
       (xs = [] \/ xs = [checkpoint_dir args (ticks s)]) /\
       (forall x, r = inr x -> xs = [checkpoint_dir args (ticks s)])).
Proof.
  intros Hrank. unfold main. apply wp_bind.
  assert (Hprep : wp makedirs_of (main_prepare local_rank args s)
            (fun xs r => match r with
                         | inl _ => xs = [] \/ xs = [checkpoint_dir args (ticks s)]
                         | inr _ => xs = [checkpoint_dir args (ticks s)]
                         end)).
  { unfold main_prepare, now, checkpoint_dir. cbv zeta. rewrite Hrank.
    repeat wp_step.
    all: cbn [makedirs_of app ticks tick set_heap set_dist_group]; try done; auto. }
  eapply wp_mono; [|exact Hprep].
  intros xs [e|[l s']] Hxs; [by split|]. subst xs.
  apply wp_bind. eapply wp_mono; [|by apply train_silent; intros []].
  intros ys [e|[[] s'']] ->; [split; [by right | done]|].
  repeat wp_step.
  all: cbn [makedirs_of app]; split; [by right | done].
Qed.

Lemma append_assoc (a b c : string) : (a +:+ b) +:+ c = a +:+ (b +:+ c).
Proof. induction a as [|ch a IH]; [done | exact (f_equal (String ch) IH)]. Qed.

Lemma main_saves_in_directory (local_rank : Z) (args : Namespace) (s : pystate) :
  (node_index args * gpus args + local_rank)%Z = 0%Z ->
  dist_group s = None ->
  has_char "/" (strftime (ticks s) "%Y-%m-%d_%H:%M:%S") = false ->
  wp save_of (main local_rank args s)
    (fun xs r =>
       exists k, (k <= Z.to_nat (epochs args))%nat /\
         xs = map (fun e => checkpoint_dir args (ticks s) +:+ "/epoch_" +:+ str_of_nat (e + 1)
                              +:+ ".pth") (seq 0 k) /\
         (forall x, r = inr x -> k = Z.to_nat (epochs args))).
Proof.
  intros Hrank Hnone Hstamp. unfold main. apply wp_bind.
  eapply wp_mono; [|by apply main_prepare_directory].
  intros xs [e|[l s']] [-> Hl]; [by exists 0%nat; split; [lia|]|].
  destruct (Hl _ _ eq_refl) as [Hg Hwriter].
  apply wp_bind. eapply wp_mono; [|apply train_saves].
  rewrite Hg, Hwriter. cbn [Z.eqb].
  assert (Hpaths : forall k,
            flat_map (epoch_checkpoint
                        (Some (SummaryWriter
                                 (log_dir args +:+ "/" +:+
                                  strftime (ticks s) "%Y-%m-%d_%H:%M:%S")))) (seq 0 k)
            = map (fun e => checkpoint_dir args (ticks s) +:+ "/epoch_" +:+ str_of_nat (e + 1)
                              +:+ ".pth") (seq 0 k)).
  { intros k.
    rewrite (epoch_checkpoints_of_split _ (log_dir args)
               (strftime (ticks s) "%Y-%m-%d_%H:%M:%S")).
    - apply map_ext. intros e. unfold checkpoint_path, checkpoint_dir.
      by rewrite !append_assoc.
    - cbn [writer_log_dir]. by apply rsplit_last_join. }
  intros ys [e|[[] s'']] [(k & Hk & [-> Hlen] & Hdone) _].
  - exists k. split; [done|]. split; [|done]. cbn [app]. apply Hpaths.
  - repeat wp_step.
    all: exists k; split; [done|]; split; [|intros; by eapply Hdone].
    all: cbn [save_of app]; rewrite ?app_nil_r; apply Hpaths.
Qed.

(** A second group cannot be created. *)
Lemma main_group_twice (local_rank w : Z) (args : Namespace) (s : pystate) :
  dist_group s <> None ->
  world_size args = Some w ->
  (1 < w)%Z ->
  wp (only is_group) (main local_rank args s)
    (fun xs r =>
       xs = [] /\
       r = inl (RuntimeError "trying to initialize the default process group twice!")).
Proof.
  intros Hsome Hw Hlt. unfold main. apply wp_bind.
  unfold main_prepare, setup, init_process_group, get_world_size. cbv zeta. rewrite Hw.
  destruct (dist_group s) as [g|] eqn:Hg; [|done].
  repeat wp_step.
  all: try (exfalso; match goal with Hb : (1 <? _)%Z = false |- _ =>
                       apply Z.ltb_ge in Hb; lia end).
  all: first [done | congruence].
Qed.

(** X18. With [args.model] equal to ['original'], [main] hands [None]
    to [SimCLR.load] as the path and never gets to train: it raises
    before any training event, and when the namespace has the other
    attributes it reads ([world_size], [arch_depth], [arch_width],
    [arch_sk]) the exception is the one [torch.load] raises on [None],
    which is no file and has no [seek]. *)
Theorem main_original_model_cannot_be_loaded
    (local_rank : Z) (args : Namespace) (s : pystate) (o : nat -> Q -> Q) (n : nat) :
  extra args !! "model" = Some (VStr "original") ->
  let r := run o n (main local_rank args s) in
  (exists e, result r = inl e) /\
  observed (only is_training) (trace r) = [] /\
  (forall w, world_size args = Some w ->
     ((1 < w)%Z -> dist_group s = None) ->
     is_Some (extra args !! "arch_depth") ->
     is_Some (extra args !! "arch_width") ->
     is_Some (extra args !! "arch_sk") ->
     result r = inl (AttributeError "seek")).
Proof.
  intros Hmodel r.
  assert (Hmain : wp (only is_training) (main local_rank args s)
            (fun xs r => xs = [] /\
               exists e, r = inl e /\
                 (forall w, world_size args = Some w ->
                    ((1 < w)%Z -> dist_group s = None) ->
                    is_Some (extra args !! "arch_depth") ->
                    is_Some (extra args !! "arch_width") ->
                    is_Some (extra args !! "arch_sk") ->
                    e = AttributeError "seek"))).
  { unfold main. apply wp_bind.
    eapply wp_mono; [|by apply main_prepare_original].
    intros xs [e|[l s']] (-> & e' & He & Hseek); [|done].
    injection He as ->. split; [done|]. by exists e'. }
  apply (wp_run _ _ _ o n) in Hmain. fold r in Hmain.
  destruct Hmain as (Htr & e & He & Hseek).
  split; [by exists e|]. split; [done|].
  intros w Hw Hg Hd Hwd Hsk. rewrite He. f_equal. by eapply Hseek.
Qed.

(** X19. [main] creates the process group once, as its first effect on
    it, exactly when [world_size] exceeds 1, and destroys it only at its
    very end: a run that returns has created and then destroyed the
    group and leaves none behind; a run that raises, anywhere after the
    creation, has not destroyed the group it created; with a world of
    size 1 or less the group is never touched; and a process that
    already has a group cannot run [main] for a larger world. *)
Theorem main_process_group_lifecycle
    (local_rank w : Z) (args : Namespace) (s : pystate) (o : nat -> Q -> Q) (n : nat) :
  world_size args = Some w ->
  let r := run o n (main local_rank args s) in
  let created := InitProcessGroup (node_index args * gpus args + local_rank) w in
  (dist_group s = None -> (w <= 1)%Z -> observed (only is_group) (trace r) = []) /\
  (dist_group s = None -> (1 < w)%Z ->
   (forall e, result r = inl e -> observed (only is_group) (trace r) = [created]) /\
   (forall x s', result r = inr (x, s') ->
      observed (only is_group) (trace r) = [created; DestroyProcessGroup] /\
      dist_group s' = None)) /\
  (dist_group s <> None -> (1 < w)%Z ->
   observed (only is_group) (trace r) = [] /\
   result r = inl (RuntimeError "trying to initialize the default process group twice!")).
Proof.
  intros Hw r created. split; [|split].
  - intros Hnone Hle.
    pose proof (wp_run _ _ _ o n (main_group local_rank w args s Hnone Hw)) as Hrun.
    fold r in Hrun. cbv beta in Hrun.
    by replace (1 <? w)%Z with false in Hrun by (symmetry; apply Z.ltb_ge; lia).
  - intros Hnone Hlt.
    pose proof (wp_run _ _ _ o n (main_group local_rank w args s Hnone Hw)) as Hrun.
    fold r in Hrun. cbv beta in Hrun.
    replace (1 <? w)%Z with true in Hrun by (symmetry; apply Z.ltb_lt; lia).
    destruct (result r) as [e|[x s']]; split; try done.
    intros x' s'' [= <- <-]. done.
  - intros Hsome Hlt.
    exact (wp_run _ _ _ o n (main_group_twice local_rank w args s Hsome Hw Hlt)).
Qed.

(** X20. The checkpoints of [main] land in the directory [main] has
    created for them. On the process of global rank 0, started without a
    process group at a time whose stamp contains no [/], the only
    directory [main] ever creates is [<log_dir>_models/<stamp>], and the
    checkpoints it saves are, in order, [epoch_1.pth], [epoch_2.pth],
    ... in that very directory: what [train] recovers by splitting the
    writer's log directory at its last [/] is what [main] has put
    together, also when [log_dir] itself contains a [/]. A run that
    returns has created the directory and saved one checkpoint per
    epoch. *)
Theorem main_checkpoints_in_created_directory
    (local_rank : Z) (args : Namespace) (s : pystate) (o : nat -> Q -> Q) (n : nat) :
  (node_index args * gpus args + local_rank)%Z = 0%Z ->
  dist_group s = None ->
  has_char "/" (strftime (ticks s) "%Y-%m-%d_%H:%M:%S") = false ->
  let r := run o n (main local_rank args s) in
  let dir := log_dir args +:+ "_models/" +:+ strftime (ticks s) "%Y-%m-%d_%H:%M:%S" in
  (observed makedirs_of (trace r) = [] \/ observed makedirs_of (trace r) = [dir]) /\
  (exists k, (k <= Z.to_nat (epochs args))%nat /\
     saved_paths (trace r)
     = map (fun e => dir +:+ "/epoch_" +:+ str_of_nat (e + 1) +:+ ".pth") (seq 0 k) /\
     (forall x, result r = inr x ->
        k = Z.to_nat (epochs args) /\ observed makedirs_of (trace r) = [dir])).
Proof.
  intros Hrank Hnone Hstamp r dir.
  pose proof (wp_run _ _ _ o n (main_makedirs local_rank args s Hrank)) as [Hdirs Hdone].
  pose proof (wp_run _ _ _ o n (main_saves_in_directory local_rank args s Hrank Hnone Hstamp))
    as (k & Hk & Hpaths & Hall).
  fold r in Hdirs, Hdone, Hpaths, Hall. split; [exact Hdirs|].
  exists k. split; [done|]. split; [exact Hpaths|].
  intros x Hx. split; [by eapply Hall | by eapply Hdone].
Qed.

End MoreMain.

(** ** The learning rate without a schedule *)

Section Rates.
Context `{Framework}.

Lemma wp_for_each_all {X L Y} (obs : event -> list Y) (P : Y -> Prop) (xs : list X)
    (body : X -> L -> prog L) :
  (forall x l s, wp obs (body x l s) (fun ys _ => Forall P ys)) ->
  forall l s, wp obs (for_each xs body l s) (fun ys _ => Forall P ys).
Proof.
  intros Hbody. induction xs as [|x xs IH]; intros l s; [by constructor|].
  cbn [for_each]. apply wp_bind. eapply wp_mono; [|apply Hbody].
  intros ys [e|[l' s']] Hys; [done|].
  eapply wp_mono; [|apply IH]. intros zs r Hzs. by apply Forall_app.
Qed.

Lemma train_rates (model : model_obj) (epochs : Z) (train_dataloader : loader_obj)
    (val_dataloader : option loader_obj) (criterion : criterion_obj)
    (optimizer : optimizer_obj) (writer : option writer_obj) (sampler : option sampler_obj)
    (local_rank : Z) (s : pystate) :
  wp rate_of
    (train model epochs train_dataloader val_dataloader criterion optimizer None writer
       sampler local_rank s)
    (fun xs _ => Forall (fun f => f = param_group_lr optimizer) xs).
Proof.
  unfold train.
  apply wp_bind. cbn [get wp]. cbv beta iota.
  destruct (dist_group s) as [[r w]|]; cbv beta iota.
  all: apply wp_bind; cbn [emit wp rate_of app]; cbv beta iota.
  all: apply wp_bind; (eapply wp_mono; [|apply (wp_for_each_all _
                                                  (fun f => f = param_group_lr optimizer))]).
  all: try (intros epoch vl s'; repeat wp_step; cbn [rate_of app]; by repeat constructor).
  all: intros xs [e|[l s']] Hxs; cbn [ret wp]; rewrite ?app_nil_r; done.
Qed.

Lemma main_prepare_rate (local_rank : Z) (args : Namespace) (s : pystate) :
  scheduler args = "False" ->
  wp rate_of (main_prepare local_rank args s)
    (fun xs r => xs = [] /\
       forall l s', r = inr (l, s') ->
         l_scheduler l = None /\ param_group_lr (l_optimizer l) = lr args).
Proof.
  intros Hsched. unfold main_prepare. cbv zeta. rewrite Hsched.
  repeat wp_step.
  all: split; [done|]; intros l' s'' Hr; try done.
  all: by injection Hr as <- <-.
Qed.

(** X3. With [--scheduler False], every learning rate [main] logs under
    [Misc/learning_rate] is the rate of the arguments: [get_optimizer]
    puts [args.lr] into the optimizer it builds, [main] drops the
    schedule, and [train] then reads the rate back from the optimizer
    in every epoch. *)
Theorem main_without_scheduler_logs_the_given_rate
    (local_rank : Z) (args : Namespace) (s : pystate) (o : nat -> Q -> Q) (n : nat) :
  scheduler args = "False" ->
  Forall (fun f => f = lr args) (observed rate_of (trace (run o n (main local_rank args s)))).
Proof.
  intros Hsched.
  refine (wp_run _ _ (fun xs _ => Forall (fun f => f = lr args) xs) o n _).
  unfold main. apply wp_bind.
  eapply wp_mono; [|by apply main_prepare_rate].
  intros xs [e|[l s']] [-> Hl]; [done|].
  destruct (Hl _ _ eq_refl) as [Hnone Hlr]. rewrite Hnone.
  apply wp_bind. eapply wp_mono; [|apply train_rates]. rewrite Hlr.
  intros ys [e|[[] s'']] Hys; [done|].
  repeat wp_step.
  all: cbn [rate_of app]; by rewrite ?app_nil_r.
Qed.

End Rates.

(** ** More worked instances *)

Section MoreInstances.
#[local] Existing Instance demo_framework.


(** X3 on a single process without a schedule: the two epochs log the
    rate of the arguments. *)
Lemma main_without_scheduler_logs_the_given_rate_witness :
  Forall (fun f => f = 0.08%float)
    (observed rate_of (trace (run demo_oracle 0 (main 0 demo_run_args demo_disk)))) /\
  length (observed rate_of (trace (run demo_oracle 0 (main 0 demo_run_args demo_disk)))) = 2%nat.
Proof.
  split.
  - exact (main_without_scheduler_logs_the_given_rate 0 demo_run_args demo_disk demo_oracle 0
             eq_refl).
  - reflexivity.
Defined.

(** X4 at the default command line. *)
Lemma parse_args_frame_witness :
  parse_args demo_parsed = inr demo_args /\
  epochs demo_args = 100%Z /\ world_size demo_args = Some 8%Z /\ extra demo_args = ∅.
Proof.
  destruct (parse_args_frame demo_parsed demo_args eq_refl)
    as (_ & _ & _ & _ & _ & He & _ & _ & _ & _ & _ & _ & _ & _ & _ & _ & _ & _ & _ & Hw & Hx & _).
  split; [reflexivity|]. split; [exact He|]. split; [exact Hw | exact Hx].
Defined.

(** X5 at the log directory [runs/exp1/]. *)
Lemma parse_args_strips_one_slash_witness :
  parse_args demo_parsed = inr demo_args /\ log_dir demo_args = "runs/exp1".
Proof.
  split; [reflexivity|].
  exact (proj1 (parse_args_strips_one_slash demo_parsed demo_args eq_refl) "runs/exp1" eq_refl).
Defined.

(** X6 at an empty log directory. *)
Lemma parse_args_empty_log_dir_witness :
  parse_args (set_log_dir "" demo_parsed) = inl IndexError.
Proof. exact (proj1 (proj1 (parse_args_empty_log_dir (set_log_dir "" demo_parsed))) eq_refl). Defined.



(** X10 on a single process, two epochs, no validation. *)
Lemma train_logs_every_epoch_witness :
  observed log_of
    (trace (run demo_oracle 0
              (train (Plain demo_model) 2 demo_loader None demo_criterion demo_optimizer None
                 (Some (SummaryWriter "runs/exp1")) None 0 demo_state)))
  = [("Loss/train", 0%nat); ("Misc/learning_rate", 0%nat);
     ("Loss/train", 1%nat); ("Misc/learning_rate", 1%nat)].
Proof.
  assert (Hr : exists x,
             result (run demo_oracle 0
                       (train (Plain demo_model) 2 demo_loader None demo_criterion
                          demo_optimizer None (Some (SummaryWriter "runs/exp1")) None 0
                          demo_state)) = inr x)
    by (vm_compute; eexists; reflexivity).
  destruct Hr as [x Hx].
  exact (train_logs_every_epoch (Plain demo_model) 2 demo_loader None demo_criterion
           demo_optimizer None (Some (SummaryWriter "runs/exp1")) None 0 demo_state
           demo_oracle 0 x Hx).
Defined.

(** X11 on the process of rank 1 of a group of two, with a validation
    loader. *)
Lemma train_validates_on_rank_0_only_witness :
  observed enter_of
    (trace (run demo_oracle 0
              (train (DDP demo_model) 2 demo_loader (Some demo_loader) demo_criterion
                 demo_optimizer None None (Some (demo_sampler 1)) 1 (demo_group_state 1))))
  = [].
Proof.
  apply (proj1 (train_validates_on_rank_0_only (DDP demo_model) 2 demo_loader
                  (Some demo_loader) demo_criterion demo_optimizer None None
                  (Some (demo_sampler 1)) 1 (demo_group_state 1) demo_oracle 0)).
  discriminate.
Defined.

(** X12 on the process of rank 1 of a group of two. *)
Lemma train_sets_sampler_epoch_witness :
  observed set_epoch_of (trace (run demo_oracle 0 (trainer_call 2 (demo_trainer 1 None))))
  = [0%nat; 1%nat].
Proof.
  assert (Hr : exists x,
             result (run demo_oracle 0 (trainer_call 2 (demo_trainer 1 None))) = inr x)
    by (vm_compute; eexists; reflexivity).
  destruct Hr as [x Hx].
  exact (proj1 (train_sets_sampler_epoch (DDP demo_model) 2 demo_loader None demo_criterion
                  demo_optimizer None None (Some (demo_sampler 1)) 1 (demo_group_state 1)
                  demo_oracle 0) eq_refl x Hx).
Defined.

(** X14 on the process of rank 1 of a group of two. *)
Lemma train_collective_calls_witness :
  syncs demo_oracle 0 (trainer_call 2 (demo_trainer 1 None)) = [Reduce; Wait; Reduce; Wait].
Proof.
  assert (Hr : exists x,
             result (run demo_oracle 0 (trainer_call 2 (demo_trainer 1 None))) = inr x)
    by (vm_compute; eexists; reflexivity).
  destruct Hr as [x Hx].
  exact (proj1 (proj2 (train_collective_calls (DDP demo_model) 2 demo_loader None
                         demo_criterion demo_optimizer None None (Some (demo_sampler 1)) 1
                         (demo_group_state 1) demo_oracle 0) eq_refl) x Hx).
Defined.



(** X16 on the group of two when the process of rank 0 has no writer:
    it raises in the first epoch and the other process waits for ever. *)
Lemma train_group_hangs_witness :
  run_group 5 (map (trainer_call 2) demo_broken_group) = Hang.
Proof.
  apply (train_group_hangs 2 demo_broken_group 5 (demo_trainer 0 None) (demo_trainer 1 None)
           0).
  - apply list_elem_of_lookup. by exists 0%nat.
  - apply list_elem_of_lookup. by exists 1%nat.
  - reflexivity.
  - reflexivity.
  - cbn. lia.
  - intros (_ & _ & Hr). by destruct (Hr eq_refl) as (_ & Hc & _).
  - intros e _. split; [done|]. split; [done|]. intros Hrank. done.
  - cbn. lia.
Defined.

(** X18 on a single process. *)
Lemma main_original_model_cannot_be_loaded_witness :
  result (run demo_oracle 0 (main 0 demo_original_args demo_disk))
  = inl (AttributeError "seek").
Proof.
  apply (proj2 (proj2 (main_original_model_cannot_be_loaded 0 demo_original_args demo_disk
                         demo_oracle 0 eq_refl)) 1%Z eq_refl).
  - done.
  - by eexists.
  - by eexists.
  - by eexists.
Defined.

(** X19 on the process of rank 0 of one node of two devices. *)
Lemma main_process_group_lifecycle_witness :
  observed (only is_group) (trace (run demo_oracle 0 (main 0 demo_pair_args demo_disk)))
  = [InitProcessGroup 0 2; DestroyProcessGroup].
Proof.
  assert (Hr : exists x s',
             result (run demo_oracle 0 (main 0 demo_pair_args demo_disk)) = inr (x, s'))
    by (vm_compute; do 2 eexists; reflexivity).
  destruct Hr as (x & s' & Hx).
  exact (proj1 (proj2 (proj1 (proj2 (main_process_group_lifecycle 0 2 demo_pair_args demo_disk
                                       demo_oracle 0 eq_refl)) eq_refl eq_refl) x s' Hx)).
Defined.

(** X20 on a single process started when the clock reads 0. *)
Lemma main_checkpoints_in_created_directory_witness :
  observed makedirs_of (trace (run demo_oracle 0 (main 0 demo_run_args demo_disk)))
  = ["runs_models/0"] /\
  saved_paths (trace (run demo_oracle 0 (main 0 demo_run_args demo_disk)))
  = ["runs_models/0/epoch_1.pth"; "runs_models/0/epoch_2.pth"].
Proof.
  assert (Hr : exists x, result (run demo_oracle 0 (main 0 demo_run_args demo_disk)) = inr x)
    by (vm_compute; eexists; reflexivity).
  destruct Hr as [x Hx].
  assert (Hstamp : has_char "/" (strftime (ticks demo_disk) "%Y-%m-%d_%H:%M:%S") = false)
    by reflexivity.
  destruct (main_checkpoints_in_created_directory 0 demo_run_args demo_disk demo_oracle 0
              eq_refl eq_refl Hstamp) as (_ & k & _ & Hpaths & Hdone).
  destruct (Hdone x Hx) as [-> Hdirs]. split; [exact Hdirs | exact Hpaths].
Defined.

End MoreInstances.

Section LearningInstances.
#[local] Existing Instance demo_learning.

(** X17 on a single process whose steps add 1 to the weights of the
    encoder, two epochs of two batches: the checkpoint of the first
    epoch keeps the weights after two steps, that of the second and the
    parameters at the end have them after four. *)
Lemma train_leaves_one_checkpoint_per_epoch_witness :
  exists s',
    result (run demo_oracle 0
              (train (Plain demo_model) 2 demo_loader None demo_criterion demo_optimizer None
                 (Some (SummaryWriter "runs/exp1")) None 0 (PyState demo_heap ∅ None 0)))
    = inr (tt, s') /\
    (files s' !! checkpoint_path "runs" "exp1" 0) ≫= (.!! "encoder")
    = Some {[ "conv.weight" := Tensor [2%nat] [5#2; 11#4]%Q ]} /\
    (files s' !! checkpoint_path "runs" "exp1" 1) ≫= (.!! "encoder")
    = Some {[ "conv.weight" := Tensor [2%nat] [9#2; 19#4]%Q ]} /\
    heap s' !!! 1%positive = {[ "conv.weight" := Tensor [2%nat] [9#2; 19#4]%Q ]}.
Proof.
  assert (Hr : exists s',
             result (run demo_oracle 0
                       (train (Plain demo_model) 2 demo_loader None demo_criterion
                          demo_optimizer None (Some (SummaryWriter "runs/exp1")) None 0
                          (PyState demo_heap ∅ None 0))) = inr (tt, s'))
    by (vm_compute; eexists; reflexivity).
  destruct Hr as [s' Hx].
  destruct (train_leaves_one_checkpoint_per_epoch (Plain demo_model) 2 demo_loader None
              demo_criterion demo_optimizer None (Some (SummaryWriter "runs/exp1")) None 0
              (PyState demo_heap ∅ None 0) demo_oracle 0 tt s' Hx) as (Hheap & _ & _ & Hfiles).
  destruct (Hfiles eq_refl (SummaryWriter "runs/exp1") "runs" "exp1" eq_refl eq_refl eq_refl)
    as [Hin _].
  exists s'. split; [exact Hx|].
  rewrite (Hin 0%nat), (Hin 1%nat), Hheap by (cbn; lia).
  split; [|split]; vm_compute; reflexivity.
Defined.

End LearningInstances.
